(** * devops-portal-auth-sdk: the permission matcher and the dynamic
      authorization resolver

    A shallow embedding of the Go package [auth]:
    - [gin_middleware.go]: [checkPermission], [matchesWildcardPermission]
      and the permission loop of [RequireAnyPermission];
    - the client file: [ValidateToken], [ValidateTokenWithDynamicAuth],
      [CheckUserStatus], [CheckForceLogout], [GetUserDynamicPermissions].

    Go strings are byte sequences and are modelled by [string] (a list of
    8-bit [ascii]); [int64] values are modelled in [Z]; a Go [[]string] is a
    [list string], the nil slice being the empty list. *)

From Stdlib Require Import ZArith String Ascii List Bool Lia.
From stdpp Require Import base strings gmap list.
Import ListNotations.

Set Warnings "-register-all".
Open Scope string_scope.

(** ** The Go standard library functions the package calls *)

Module strings.

(** [strings.HasPrefix(s, prefix)] *)
Definition HasPrefix (s prefix : string) : bool := String.prefix prefix s.

(** [s[n:]] *)
Fixpoint drop (n : nat) (s : string) : string :=
  match n, s with
  | O, _ => s
  | S _, EmptyString => EmptyString
  | S k, String _ s' => drop k s'
  end.

(** [strings.TrimPrefix]:
    [if HasPrefix(s, prefix) { return s[len(prefix):] }; return s] *)
Definition TrimPrefix (s prefix : string) : string :=
  if HasPrefix s prefix then drop (String.length prefix) s else s.

(** [strings.Contains(s, substr)]: [substr] occurs at some offset of [s]. *)
Fixpoint Contains (s substr : string) : bool :=
  if HasPrefix s substr then true
  else match s with
       | EmptyString => false
       | String _ s' => Contains s' substr
       end.

(** [strings.Split(s, sep)] for a non-empty [sep]: scan [s] from the left;
    [cur] is the piece being collected, [skip] counts the bytes of a
    separator just found that are still to be passed over. *)
Fixpoint split_from (sep s : string) (skip : nat) (cur : string)
  : list string :=
  match s with
  | EmptyString => [cur]
  | String ch s' =>
      match skip with
      | S k => split_from sep s' k cur
      | O =>
          if HasPrefix s sep
          then cur :: split_from sep s' (String.length sep - 1) EmptyString
          else split_from sep s' 0 (cur +:+ String ch EmptyString)
      end
  end.

(** With an empty separator Go explodes [s] into its UTF-8 sequences; the
    package never does that, and the model gives the bytes. *)
Fixpoint explode (s : string) : list string :=
  match s with
  | EmptyString => []
  | String ch s' => String ch EmptyString :: explode s'
  end.

Definition Split (s sep : string) : list string :=
  match sep with
  | EmptyString => explode s
  | _ => split_from sep s 0 EmptyString
  end.

(** [strings.Join(elems, sep)] *)
Fixpoint Join (elems : list string) (sep : string) : string :=
  match elems with
  | [] => EmptyString
  | [e] => e
  | e :: rest => e +:+ sep +:+ Join rest sep
  end.

End strings.

(** ** gin_middleware.go: the permission matcher *)

(** The loop of [matchesWildcardPermission]:
    [for i, userPart := range userParts {
       if userPart != "*" && userPart != requiredParts[i] { return false } }
     return true].
    [requiredParts[i]] is read only when [userPart != "*"]; an index out of
    range is a run-time panic, rendered by [None]. *)
Fixpoint wildcard_parts_loop (i : nat) (userParts requiredParts : list string)
  : option bool :=
  match userParts with
  | [] => Some true
  | userPart :: rest =>
      if String.eqb userPart "*"
      then wildcard_parts_loop (S i) rest requiredParts
      else match requiredParts !! i with
           | None => None
           | Some requiredPart =>
               if String.eqb userPart requiredPart
               then wildcard_parts_loop (S i) rest requiredParts
               else Some false
           end
  end.

(** [matchesWildcardPermission(userPerm, requiredPerm)]. The length test
    before the loop keeps every index in range ([wildcard_parts_loop_total]
    below), so the [None] case of the loop is never reached. *)
Definition matchesWildcardPermission (userPerm requiredPerm : string) : bool :=
  if negb (strings.Contains userPerm "*") then false
  else
    let userParts := strings.Split userPerm ":" in
    let requiredParts := strings.Split requiredPerm ":" in
    if negb (Nat.eqb (length userParts) (length requiredParts)) then false
    else
      match wildcard_parts_loop 0 userParts requiredParts with
      | Some b => b
      | None => false
      end.

(** [checkPermission(userPermissions, requiredPermission)] *)
Fixpoint checkPermission (userPermissions : list string)
    (requiredPermission : string) : bool :=
  match userPermissions with
  | [] => false
  | perm :: rest =>
      if String.eqb perm requiredPermission then true
      else if String.eqb perm "*" || String.eqb perm "*:*:*" then true
      else if matchesWildcardPermission perm requiredPermission then true
      else checkPermission rest requiredPermission
  end.

(** The permission loop of [RequireAnyPermission]:
    [hasPermission := false
     for _, requiredPerm := range permissions {
       if m.checkPermission(userPerms, requiredPerm) {
         hasPermission = true; break } }] *)
Fixpoint hasAnyPermission (userPerms permissions : list string) : bool :=
  match permissions with
  | [] => false
  | requiredPerm :: rest =>
      if checkPermission userPerms requiredPerm then true
      else hasAnyPermission userPerms rest
  end.

(** What a handler does with the request: pass it on ([c.Next()]) or answer
    with a status and a message and stop ([respond...; c.Abort()]). *)
Inductive HandlerOutcome :=
| Next
| Abort (status : Z) (message : string).

(** A value kept in the gin context ([interface{}]): the handlers of the
    package store strings and string slices. *)
Inductive CtxValue :=
| CtxString (s : string)
| CtxStrings (l : list string).

Definition StatusForbidden : Z := 403.

(** [RequirePermission(permission)], as a function of the request context. *)
Definition RequirePermission (permission : string)
    (c : gmap string CtxValue) : HandlerOutcome :=
  match c !! "permissions" with
  | None => Abort StatusForbidden "No permissions found"
  | Some (CtxStrings userPermissions) =>
      if negb (checkPermission userPermissions permission)
      then Abort StatusForbidden
             ("Insufficient permissions: required '" +:+ permission +:+ "'")
      else Next
  | Some _ => Abort StatusForbidden "Invalid permissions format"
  end.

(** [RequireAnyPermission(permissions...)] *)
Definition RequireAnyPermission (permissions : list string)
    (c : gmap string CtxValue) : HandlerOutcome :=
  match c !! "permissions" with
  | None => Abort StatusForbidden "No permissions found"
  | Some (CtxStrings userPerms) =>
      if negb (hasAnyPermission userPerms permissions)
      then Abort StatusForbidden
             ("Insufficient permissions: required one of ["
                +:+ strings.Join permissions ", " +:+ "]")
      else Next
  | Some _ => Abort StatusForbidden "Invalid permissions format"
  end.

(** A held segment grants a required one when it is the wildcard or the
    same string. *)
Definition segment_grants (userPart requiredPart : string) : Prop :=
  userPart = "*" \/ userPart = requiredPart.

(** One held permission grants a required one by one of the three rules of
    [checkPermission]. *)
Definition perm_grants (perm requiredPermission : string) : Prop :=
  perm = requiredPermission \/
  (perm = "*" \/ perm = "*:*:*") \/
  matchesWildcardPermission perm requiredPermission = true.

(** ** Errors and library values *)

(** The two causes of a [*strconv.NumError]. *)
Inductive NumErrorCause := ErrSyntax | ErrRange.

(** Go [error] values, as far as the package builds or tests them:
    - [redis_Nil] is the sentinel [redis.Nil] (the key does not exist), the
      only error the package compares with [==];
    - [lib_error] is any other error value a library hands back (a redis
      connection or timeout error, a jwt or json error);
    - [fmt_Errorf msg] is [fmt.Errorf(msg)], [fmt_Errorf_w msg err] is
      [fmt.Errorf(msg + ": %w", err)]. *)
Inductive error :=
| redis_Nil
| lib_error (msg : string)
| strconv_NumError (Func Num : string) (Err : NumErrorCause)
| fmt_Errorf (msg : string)
| fmt_Errorf_w (msg : string) (err : error).

(** A Go call either returns or panics. *)
Inductive outcome (A : Type) :=
| Returns (a : A)
| Panics (reason : string).
Arguments Returns {A} a.
Arguments Panics {A} reason.

(** What [json.Unmarshal] stores in an [interface{}]: [nil], [bool],
    [float64] (kept as its literal), [string], [[]interface{}] and
    [map[string]interface{}]. *)
Inductive JValue :=
| JNull
| JBool (b : bool)
| JNumber (literal : string)
| JString (s : string)
| JArray (elems : list JValue)
| JObject (fields : gmap string JValue).

Module strconv.

Definition maxUint64 : Z := 2 ^ 64 - 1.

(** ['0' <= c && c <= '9'] gives [d = c - '0']. *)
Definition digit (c : ascii) : option Z :=
  let n := Z.of_N (N_of_ascii c) in
  if (48 <=? n)%Z && (n <=? 57)%Z then Some (n - 48)%Z else None.

(** The loop of [ParseUint(s, 10, 64)] over the bytes of [s], on [uint64]
    with its wrap-around written out. A letter is a digit of a larger
    base and is refused like any other byte; [cutoff] is
    [maxUint64/10 + 1]. *)
Fixpoint ParseUint_loop (s : string) (n : Z) : Z * option NumErrorCause :=
  match s with
  | EmptyString => (n, None)
  | String c s' =>
      match digit c with
      | None => (0, Some ErrSyntax)
      | Some d =>
          if (maxUint64 / 10 + 1 <=? n)%Z then (maxUint64, Some ErrRange)
          else
            let n := ((n * 10) mod 2 ^ 64)%Z in
            let n1 := ((n + d) mod 2 ^ 64)%Z in
            if (n1 <? n)%Z || (maxUint64 <? n1)%Z
            then (maxUint64, Some ErrRange)
            else ParseUint_loop s' n1
      end
  end%Z.

Definition ParseUint (s : string) : Z * option NumErrorCause :=
  match s with
  | EmptyString => (0%Z, Some ErrSyntax)
  | _ => ParseUint_loop s 0
  end.

(** [strconv.ParseInt(s, 10, 64)] *)
Definition ParseInt (s : string) : Z * option error :=
  match s with
  | EmptyString => (0%Z, Some (strconv_NumError "ParseInt" s ErrSyntax))
  | String c rest =>
      let neg := Ascii.eqb c "-" in
      let s1 := if Ascii.eqb c "+" || Ascii.eqb c "-" then rest else s in
      match ParseUint s1 with
      | (_, Some ErrSyntax) =>
          (0%Z, Some (strconv_NumError "ParseInt" s ErrSyntax))
      | (un, _) =>
          let cutoff := (2 ^ 63)%Z in
          if negb neg && (cutoff <=? un)%Z
          then ((cutoff - 1)%Z, Some (strconv_NumError "ParseInt" s ErrRange))
          else if neg && (cutoff <? un)%Z
          then ((- cutoff)%Z, Some (strconv_NumError "ParseInt" s ErrRange))
          else ((if neg then - un else un)%Z, None)
      end
  end.

End strconv.

(** ** The data of the client *)

(** [jwt.RegisteredClaims]. A [*NumericDate] is kept as the Unix seconds of
    the date, [None] being the nil pointer of a claim the token does not
    carry. *)
Module RegisteredClaims.
Record t := mk {
  Issuer : string;
  Subject : string;
  Audience : list string;
  ExpiresAt : option Z;
  NotBefore : option Z;
  IssuedAt : option Z;
  ID : string
}.
End RegisteredClaims.

Module Claims.
Record t := mk {
  UserID : string;
  Username : string;
  Email : string;
  Roles : list string;
  Permissions : list string;
  TokenType : string;
  Registered : RegisteredClaims.t
}.
Definition Issuer (c : t) : string := RegisteredClaims.Issuer (Registered c).
Definition IssuedAt (c : t) : option Z := RegisteredClaims.IssuedAt (Registered c).
End Claims.

Module AuthResult.
Record t := mk {
  Claims : Claims.t;
  DynamicPermissions : list string;
  IsActive : bool;
  ShouldForceLogout : bool
}.
(** [&AuthResult{Claims: claims}]: the other fields are zero. *)
Definition new (claims : Claims.t) : t := mk claims [] false false.
Definition set_IsActive (r : t) (b : bool) : t :=
  mk (Claims r) (DynamicPermissions r) b (ShouldForceLogout r).
Definition set_ShouldForceLogout (r : t) (b : bool) : t :=
  mk (Claims r) (DynamicPermissions r) (IsActive r) b.
Definition set_DynamicPermissions (r : t) (l : list string) : t :=
  mk (Claims r) l (IsActive r) (ShouldForceLogout r).
End AuthResult.

Module UserStatus.
Record t := mk {
  IsActive : bool;
  UpdatedAt : Z
}.
End UserStatus.

Module jwt.
(** The signing method of a parsed token: [*jwt.SigningMethodRSA] or
    another one. *)
Inductive SigningMethod :=
| SigningMethodRSA
| SigningMethodOther.

(** The dynamic type of [token.Claims]: the [*Claims] handed to
    [ParseWithClaims], or something else. *)
Inductive ClaimsValue :=
| ClaimsPtr (c : Claims.t)
| OtherClaims.

Record Token := mkToken {
  Method : SigningMethod;
  Header_alg : string;
  TokenClaims : ClaimsValue;
  Valid : bool
}.
End jwt.

Module Config.
Record t := mk {
  PublicKeyPath : string;
  Issuer : string;
  RedisAddr : string;
  RedisPassword : string;
  RedisDB : Z;
  AuthServiceURL : string
}.
End Config.

(** The libraries outside the package, taken as they come: the key
    material, the jwt parser (which calls the key function it is given,
    checks the signature and validates the registered claims) and the two
    uses of [json.Unmarshal], into a [UserStatus] and into a
    [map[string]interface{}]. A library call that gives [(value, err)] and
    whose value the package reads only when [err == nil] is a sum. *)
Class Externals := {
  Key : Type;
  jwt_ParseWithClaims :
    string -> (jwt.Token -> Key + error) -> jwt.Token + error;
  json_Unmarshal_UserStatus : string -> UserStatus.t + error;
  json_Unmarshal_map : string -> gmap string JValue + error
}.

Module Client.
(** [redisClient] is the behaviour of [redisClient.Get(ctx, key).Result()]
    on each key: the value and the error of the reply. *)
Record t `{Externals} := mk {
  config : Config.t;
  publicKey : Key;
  redisClient : string -> string * option error
}.
End Client.

(** ** The client: token verification and the three store reads

    The calls to [c.logger.Warn] write a log line and change no value the
    functions return; they are left out. The context argument only reaches
    the redis client, whose behaviour is [Client.redisClient]. *)

Section ClientMethods.

Context `{Externals}.

(** The key function [ValidateToken] hands to the parser. *)
Definition keyfunc (c : Client.t) (token : jwt.Token) : Key + error :=
  match jwt.Method token with
  | jwt.SigningMethodRSA => inl (Client.publicKey c)
  | jwt.SigningMethodOther =>
      inr (fmt_Errorf ("unexpected signing method: " +:+ jwt.Header_alg token))
  end.

(** [ValidateToken(tokenString string)], returning a [*Claims] and an
    [error]. *)
Definition ValidateToken (c : Client.t) (tokenString : string)
  : option Claims.t * option error :=
  let tokenString := strings.TrimPrefix tokenString "Bearer " in
  match jwt_ParseWithClaims tokenString (keyfunc c) with
  | inr err => (None, Some (fmt_Errorf_w "failed to parse token" err))
  | inl token =>
      match jwt.TokenClaims token with
      | jwt.OtherClaims => (None, Some (fmt_Errorf "invalid token claims"))
      | jwt.ClaimsPtr claims =>
          if negb (jwt.Valid token)
          then (None, Some (fmt_Errorf "invalid token claims"))
          else if negb (String.eqb (Claims.Issuer claims)
                                   (Config.Issuer (Client.config c)))
          then (None, Some (fmt_Errorf "invalid token issuer"))
          else (Some claims, None)
      end
  end.

(** [CheckUserStatus(ctx, userID string)], returning a [bool] and an
    [error]. *)
Definition CheckUserStatus (c : Client.t) (userID : string)
  : bool * option error :=
  let key := "user:status:" +:+ userID in
  match Client.redisClient c key with
  | (_, Some redis_Nil) => (true, None)
  | (_, Some err) => (true, Some err)
  | (val, None) =>
      match json_Unmarshal_UserStatus val with
      | inr err => (true, Some (fmt_Errorf_w "failed to parse user status" err))
      | inl status => (UserStatus.IsActive status, None)
      end
  end.

(** [CheckForceLogout(ctx, userID string, tokenIssuedAt int64)],
    returning a [bool] and an [error]. *)
Definition CheckForceLogout (c : Client.t) (userID : string)
    (tokenIssuedAt : Z) : bool * option error :=
  let key := "user:force_logout:" +:+ userID in
  match Client.redisClient c key with
  | (_, Some redis_Nil) => (false, None)
  | (_, Some err) => (false, Some err)
  | (val, None) =>
      match strconv.ParseInt val with
      | (_, Some err) =>
          (false, Some (fmt_Errorf_w "failed to parse force logout timestamp" err))
      | (forceLogoutTimestamp, None) =>
          ((tokenIssuedAt <? forceLogoutTimestamp)%Z, None)
      end
  end.

(** The loop of [GetUserDynamicPermissions] that copies the strings of
    the decoded array into the slice made by
    [make([]string, len(permissionsData))]:
    [for i, perm := range permissionsData {
       if permStr, ok := perm.(string); ok { permissions[i] = permStr } }] *)
Fixpoint fill_permissions (i : nat) (permissionsData : list JValue)
    (permissions : list string) : list string :=
  match permissionsData with
  | [] => permissions
  | perm :: rest =>
      match perm with
      | JString permStr =>
          fill_permissions (S i) rest (<[i := permStr]> permissions)
      | _ => fill_permissions (S i) rest permissions
      end
  end.

(** [GetUserDynamicPermissions(ctx, userID string)], returning a
    [[]string] and an [error]. *)
Definition GetUserDynamicPermissions (c : Client.t) (userID : string)
  : list string * option error :=
  let key := "user:dynamic_permissions:" +:+ userID in
  match Client.redisClient c key with
  | (_, Some redis_Nil) => ([], None)
  | (_, Some err) => ([], Some err)
  | (val, None) =>
      match json_Unmarshal_map val with
      | inr err =>
          ([], Some (fmt_Errorf_w "failed to parse cached permissions" err))
      | inl cacheData =>
          match cacheData !! "permissions" with
          | Some (JArray permissionsData) =>
              (fill_permissions 0 permissionsData
                 (replicate (length permissionsData) EmptyString), None)
          | _ => ([], Some (fmt_Errorf "invalid permissions format in cache"))
          end
      end
  end.

(** [ValidateTokenWithDynamicAuth(ctx, tokenString string)], returning an
    [*AuthResult] and an [error].
    [claims.IssuedAt.Unix()] goes through the pointer [claims.IssuedAt]:
    on a token without an issued-at claim the pointer is nil and the call
    panics. *)
Definition ValidateTokenWithDynamicAuth (c : Client.t) (tokenString : string)
  : outcome (option AuthResult.t * option error) :=
  match ValidateToken c tokenString with
  | (_, Some err) =>
      Returns (None, Some (fmt_Errorf_w "token validation failed" err))
  | (None, None) => Panics "nil pointer dereference"
  | (Some claims, None) =>
      let result := AuthResult.new claims in
      let '(isActive, err) := CheckUserStatus c (Claims.UserID claims) in
      let isActive := match err with Some _ => true | None => isActive end in
      let result := AuthResult.set_IsActive result isActive in
      if negb isActive then Returns (Some result, None)
      else
        match Claims.IssuedAt claims with
        | None => Panics "nil pointer dereference"
        | Some issuedAt =>
            let '(shouldForceLogout, err) :=
              CheckForceLogout c (Claims.UserID claims) issuedAt in
            let shouldForceLogout :=
              match err with Some _ => false | None => shouldForceLogout end in
            let result :=
              AuthResult.set_ShouldForceLogout result shouldForceLogout in
            let '(dynamicPermissions, err) :=
              GetUserDynamicPermissions c (Claims.UserID claims) in
            let dynamicPermissions :=
              match err with
              | Some _ => Claims.Permissions claims
              | None => dynamicPermissions
              end in
            let result :=
              AuthResult.set_DynamicPermissions result dynamicPermissions in
            Returns (Some result, None)
        end
  end.

End ClientMethods.

(** ** The store keys and the three kinds of reply *)

Definition status_key (userID : string) : string := "user:status:" +:+ userID.
Definition force_logout_key (userID : string) : string :=
  "user:force_logout:" +:+ userID.
Definition dynamic_permissions_key (userID : string) : string :=
  "user:dynamic_permissions:" +:+ userID.

Section StoreReplies.

Context `{Externals}.

(** The key does not exist: the reply carries [redis.Nil]. *)
Definition store_absent (c : Client.t) (key : string) : Prop :=
  exists val, Client.redisClient c key = (val, Some redis_Nil).

(** The read itself fails (connection refused, timeout, cancelled
    context): the reply carries another error. *)
Definition store_fails (c : Client.t) (key : string) : Prop :=
  exists val err,
    Client.redisClient c key = (val, Some err) /\ err <> redis_Nil.

(** The key holds [val]. *)
Definition store_holds (c : Client.t) (key val : string) : Prop :=
  Client.redisClient c key = (val, None).

(** The same client reading another store. *)
Definition with_store (c : Client.t)
    (store : string -> string * option error) : Client.t :=
  Client.mk _ (Client.config c) (Client.publicKey c) store.

(** The permission list a decoded array stands for: each string as it
    is, the empty string in the place of anything else. *)
Definition permission_of (v : JValue) : string :=
  match v with
  | JString s => s
  | _ => EmptyString
  end.

End StoreReplies.

(** ** A test fixture: doubles of the libraries and of the store *)

Module Fixture.

(** The double quote, for JSON texts. *)
Definition dq : string := String "034"%char EmptyString.

Definition issuer : string := "devops-portal".

(** The claims of the one token the parser double accepts: issued at
    [100] with the embedded permissions [["a:b:c"]]. *)
Definition claims_of (iss : string) (iat : option Z) : Claims.t :=
  Claims.mk "u1" "alice" "alice@example.com" ["ops"] ["a:b:c"] "access"
    (RegisteredClaims.mk iss "u1" [] (Some 4000000000%Z) None iat "jti-1").

Definition alice : Claims.t := claims_of issuer (Some 100%Z).

Definition token_text : string := "header.payload.signature".

(** A parser double: [token_text] is the one well-signed, unexpired
    token and carries [claims]; any other text is malformed. *)
Definition parse_one (claims : Claims.t) (tokenString : string)
    (keyFunc : jwt.Token -> unit + error) : jwt.Token + error :=
  if String.eqb tokenString token_text
  then
    let token := jwt.mkToken jwt.SigningMethodRSA "RS256"
                   (jwt.ClaimsPtr claims) true in
    match keyFunc token with
    | inl _ => inl token
    | inr err => inr err
    end
  else inr (lib_error "token is malformed").

Definition status_json (active : bool) : string :=
  "{" +:+ dq +:+ "is_active" +:+ dq +:+ ":"
      +:+ (if active then "true" else "false") +:+ "}".

(** [{"permissions":["cdn:zones:read",7,"dns:*:*"]}] *)
Definition permissions_json : string :=
  "{" +:+ dq +:+ "permissions" +:+ dq +:+ ":["
      +:+ dq +:+ "cdn:zones:read" +:+ dq +:+ ",7,"
      +:+ dq +:+ "dns:*:*" +:+ dq +:+ "]}".

Definition permissions_data : list JValue :=
  [JString "cdn:zones:read"; JNumber "7"; JString "dns:*:*"].

(** Decoder doubles: they know the texts above and refuse the rest. *)
Definition unmarshal_status (val : string) : UserStatus.t + error :=
  if String.eqb val (status_json true) then inl (UserStatus.mk true 0)
  else if String.eqb val (status_json false) then inl (UserStatus.mk false 0)
  else inr (lib_error "invalid character").

Definition unmarshal_map (val : string) : gmap string JValue + error :=
  if String.eqb val permissions_json
  then inl {[ "permissions" := JArray permissions_data ]}
  else if String.eqb val "{}" then inl ∅
  else inr (lib_error "invalid character").

Definition libs (claims : Claims.t) : Externals :=
  Build_Externals unit (parse_one claims) unmarshal_status unmarshal_map.

(** A store that answers from a table, [redis.Nil] for a missing key. *)
Definition store_of (table : gmap string string)
  : string -> string * option error :=
  fun key =>
    match table !! key with
    | Some val => (val, None)
    | None => (EmptyString, Some redis_Nil)
    end.

(** A store that cannot be reached. *)
Definition store_down : string -> string * option error :=
  fun _ => (EmptyString, Some (lib_error "dial tcp: connection refused")).

Definition config : Config.t :=
  Config.mk "/etc/keys/public.pem" issuer "redis:6379" EmptyString 0
    "http://auth:8080".

Definition client (claims : Claims.t)
    (store : string -> string * option error) : @Client.t (libs claims) :=
  @Client.mk (libs claims) config tt store.

(** The stores of the scenarios. *)
Definition marker_150 : gmap string string :=
  {[ force_logout_key "u1" := "150" ]}.

Definition inactive_marker_150 : gmap string string :=
  <[ status_key "u1" := status_json false ]> marker_150.

Definition inactive_garbled_permissions : gmap string string :=
  {[ status_key "u1" := status_json false;
     dynamic_permissions_key "u1" := "not json" ]}.

Definition garbled_permissions : gmap string string :=
  {[ dynamic_permissions_key "u1" := "not json" ]}.

Definition stored_permissions : gmap string string :=
  {[ dynamic_permissions_key "u1" := permissions_json ]}.

Definition active_client := client alice (store_of marker_150).

(** The claims of a well-signed token of another issuer. *)
Definition mallory : Claims.t := claims_of "someone-else" (Some 100%Z).

(** The claims of a well-signed token without an issued-at claim. *)
Definition undated : Claims.t := claims_of issuer None.

End Fixture.

(** ** gin_middleware.go: the handlers *)

Definition StatusUnauthorized : Z := 401.

(** [respondUnauthorized] and [respondForbidden] answer with the status
    and the message; the other two fields of the body, [success: false]
    and the error word, are fixed by the status. The handlers call
    [c.Abort()] right after, hence [Abort]. *)
Definition respondUnauthorized (message : string) : HandlerOutcome :=
  Abort StatusUnauthorized message.

Definition respondForbidden (message : string) : HandlerOutcome :=
  Abort StatusForbidden message.

Module gin.

(** The part of a [*gin.Context] the handlers use: [Header] is what
    [c.GetHeader] answers for a header name (the empty string for a missing
    header), [Keys] is the key/value store of [c.Set] and [c.Get]. *)
Record Context := mkContext {
  Header : string -> string;
  Keys : gmap string CtxValue
}.

Definition GetHeader (c : Context) (key : string) : string := Header c key.

(** [c.Set(key, value)] *)
Definition Set' (c : Context) (key : string) (value : CtxValue) : Context :=
  mkContext (Header c) (<[key := value]> (Keys c)).

(** [c.Get(key)] *)
Definition Get (c : Context) (key : string) : option CtxValue := Keys c !! key.

(** A handler either panics or leaves a context and an outcome. *)
Definition HandlerFunc : Type := Context -> outcome (Context * HandlerOutcome).

(** The handlers of a route in order: each one ends in [c.Next()], which
    runs the rest, or in [c.Abort()], which stops the chain. *)
Fixpoint run (handlers : list HandlerFunc) (c : Context)
  : outcome (Context * HandlerOutcome) :=
  match handlers with
  | [] => Returns (c, Next)
  | h :: rest =>
      match h c with
      | Panics reason => Panics reason
      | Returns (c', Next) => run rest c'
      | Returns (c', Abort status message) => Returns (c', Abort status message)
      end
  end.

End gin.

(** The method of the [AuthClient] interface the middleware calls. A
    result is an [AuthResult.t], whose [Claims] are set, as they are in
    every result [*Client] returns; what the handlers do with a result
    whose [Claims] pointer is nil (they panic at [claims.UserID] once the
    two flags let the request through) is not covered, and the handler
    properties that depend on it are stated over [*Client]. *)
Record AuthClient := mkAuthClient {
  authClient_ValidateTokenWithDynamicAuth :
    string -> outcome (option AuthResult.t * option error)
}.

(** [*Client] implements [AuthClient]. *)
Definition Client_AuthClient `{Externals} (c : Client.t) : AuthClient :=
  mkAuthClient (ValidateTokenWithDynamicAuth c).

(** Go's [min] of the file. *)
Definition min (a b : Z) : Z := if (a <? b)%Z then a else b.

(** [s[:n]]: a run-time panic ([None]) when [n] is out of range. *)
Definition slice_to (s : string) (n : Z) : option string :=
  if (0 <=? n)%Z && (n <=? Z.of_nat (String.length s))%Z
  then Some (String.substring 0 (Z.to_nat n) s)
  else None.

(** The token prefix [Authenticate] logs when validation fails:
    [tokenString[:min(len(tokenString), 20)]]. *)
Definition token_prefix (tokenString : string) : option string :=
  slice_to tokenString (min (Z.of_nat (String.length tokenString)) 20).

(** The six [c.Set] calls of [Authenticate] and of [OptionalAuth]. *)
Definition set_user_context (c : gin.Context) (authResult : AuthResult.t)
  : gin.Context :=
  let claims := AuthResult.Claims authResult in
  let c := gin.Set' c "user_id" (CtxString (Claims.UserID claims)) in
  let c := gin.Set' c "username" (CtxString (Claims.Username claims)) in
  let c := gin.Set' c "email" (CtxString (Claims.Email claims)) in
  let c := gin.Set' c "roles" (CtxStrings (Claims.Roles claims)) in
  let c := gin.Set' c "permissions"
             (CtxStrings (AuthResult.DynamicPermissions authResult)) in
  gin.Set' c "token_id"
    (CtxString (RegisteredClaims.ID (Claims.Registered claims))).

(** [Authenticate()] *)
Definition Authenticate (authClient : AuthClient) : gin.HandlerFunc :=
  fun c =>
    let authHeader := gin.GetHeader c "Authorization" in
    if String.eqb authHeader EmptyString
    then Returns (c, respondUnauthorized "Missing authorization header")
    else
      let tokenString := strings.TrimPrefix authHeader "Bearer " in
      if String.eqb tokenString authHeader
      then Returns (c, respondUnauthorized "Invalid authorization header format")
      else
        match authClient_ValidateTokenWithDynamicAuth authClient tokenString with
        | Panics reason => Panics reason
        | Returns (_, Some err) =>
            match token_prefix tokenString with
            | None => Panics "slice bounds out of range"
            | Some _ =>
                Returns (c, respondUnauthorized "Invalid or expired token")
            end
        | Returns (None, None) => Panics "nil pointer dereference"
        | Returns (Some authResult, None) =>
            if negb (AuthResult.IsActive authResult)
            then Returns (c, respondForbidden "User account is disabled")
            else if AuthResult.ShouldForceLogout authResult
            then Returns (c, respondUnauthorized "Please login again")
            else Returns (set_user_context c authResult, Next)
        end.

(** [OptionalAuth()] *)
Definition OptionalAuth (authClient : AuthClient) : gin.HandlerFunc :=
  fun c =>
    let authHeader := gin.GetHeader c "Authorization" in
    if String.eqb authHeader EmptyString then Returns (c, Next)
    else
      let tokenString := strings.TrimPrefix authHeader "Bearer " in
      if String.eqb tokenString authHeader then Returns (c, Next)
      else
        match authClient_ValidateTokenWithDynamicAuth authClient tokenString with
        | Panics reason => Panics reason
        | Returns (_, Some err) => Returns (c, Next)
        | Returns (None, None) => Panics "nil pointer dereference"
        | Returns (Some authResult, None) =>
            if AuthResult.IsActive authResult
               && negb (AuthResult.ShouldForceLogout authResult)
            then Returns (set_user_context c authResult, Next)
            else Returns (c, Next)
        end.

(** The two permission handlers as members of a chain. *)
Definition RequirePermission_handler (permission : string) : gin.HandlerFunc :=
  fun c => Returns (c, RequirePermission permission (gin.Keys c)).

Definition RequireAnyPermission_handler (permissions : list string)
  : gin.HandlerFunc :=
  fun c => Returns (c, RequireAnyPermission permissions (gin.Keys c)).

(** [getUserID(c)] *)
Definition getUserID (c : gin.Context) : string :=
  match gin.Get c "user_id" with
  | Some (CtxString userIDStr) => userIDStr
  | _ => "unknown"
  end.

(** The number of occurrences of a byte in a string. *)
Fixpoint count_byte (ch : ascii) (s : string) : nat :=
  match s with
  | EmptyString => 0
  | String a s' => (if Ascii.eqb a ch then 1 else 0) + count_byte ch s'
  end.

(** What a handler decided, the request headers left aside: the keys of
    the context and the outcome. *)
Definition verdict (o : outcome (gin.Context * HandlerOutcome))
  : outcome (gmap string CtxValue * HandlerOutcome) :=
  match o with
  | Returns (c, out) => Returns (gin.Keys c, out)
  | Panics reason => Panics reason
  end.

(** A request context with the given [Authorization] header. *)
Definition with_Authorization (c : gin.Context) (value : string) : gin.Context :=
  gin.mkContext
    (fun key => if String.eqb key "Authorization" then value else gin.Header c key)
    (gin.Keys c).

(** Request contexts of the fixture. *)
Module Requests.

(** A request without headers and with an empty context. *)
Definition bare : gin.Context := gin.mkContext (fun _ => EmptyString) ∅.

(** A request carrying the [Authorization] header [value]. *)
Definition authorized (value : string) : gin.Context :=
  with_Authorization bare value.

(** An auth client that resolves every token to [authResult]. *)
Definition always (authResult : AuthResult.t) : AuthClient :=
  mkAuthClient (fun _ => Returns (Some authResult, None)).

Definition disabled_alice : AuthResult.t :=
  AuthResult.mk Fixture.alice [] false false.

(** A store whose every read fails. *)
Definition down_client : @Client.t (Fixture.libs Fixture.alice) :=
  Fixture.client Fixture.alice Fixture.store_down.

End Requests.

(** ** Instants, the redis server and the writes of the client *)

(** Instants and durations are counted in nanoseconds, as [time.Duration]
    is. *)
Module time.

Definition Second : Z := 1000000000.
Definition Minute : Z := 60 * Second.
Definition Hour : Z := 60 * Minute.

(** [t.Unix()]: the whole seconds of the instant [t]. *)
Definition Unix (t : Z) : Z := (t / Second)%Z.

End time.

(** The redis server behind [redisClient], as far as [GET] and [SET] with
    an expiry show it: the keys with their values and the instants they
    expire at, and whether the server can be reached at all. *)
Module redis.

Record Entry := mkEntry {
  value : string;
  expireAt : option Z
}.

Record Server := mkServer {
  data : gmap string Entry;
  reachable : bool
}.

Definition refused : error := lib_error "dial tcp: connection refused".

Definition live (now : Z) (e : Entry) : bool :=
  match expireAt e with
  | None => true
  | Some t => (now <=? t)%Z
  end.

(** [redisClient.Get(ctx, key).Result()] at the instant [now] *)
Definition Get (srv : Server) (now : Z) (key : string)
  : string * option error :=
  if negb (reachable srv) then (EmptyString, Some refused)
  else
    match data srv !! key with
    | Some e => if live now e then (value e, None)
                else (EmptyString, Some redis_Nil)
    | None => (EmptyString, Some redis_Nil)
    end.

(** [redisClient.Set(ctx, key, value, expiration).Err()] at the instant
    [now]; a zero [expiration] sets no expiry. *)
Definition Set' (srv : Server) (now : Z) (key value : string)
    (expiration : Z) : Server * option error :=
  if negb (reachable srv) then (srv, Some refused)
  else
    let expire :=
      if (0 <? expiration)%Z then Some (now + expiration)%Z else None in
    (mkServer (<[key := mkEntry value expire]> (data srv)) true, None).

End redis.

(** The decimal digit [d] as a byte. *)
Definition digit_char (d : Z) : ascii := ascii_of_N (Z.to_N (48 + d)).

(** The decimal digits of [n], the most significant first, without
    leading zeros; [fuel] bounds their number. *)
Fixpoint FormatUint_digits (fuel : nat) (n : Z) : string :=
  match fuel with
  | O => EmptyString
  | S fuel' =>
      (if (n <? 10)%Z then EmptyString else FormatUint_digits fuel' (n / 10))
      +:+ String (digit_char (n mod 10)) EmptyString
  end.

(** [strconv.FormatInt(i, 10)] of an [int64], which is how the redis
    client writes an [int64] value: a minus sign for a negative number,
    then the digits of the magnitude (at most 19 of them). *)
Definition strconv_FormatInt (i : Z) : string :=
  if (i <? 0)%Z then String "-" (FormatUint_digits 20 (- i))
  else FormatUint_digits 20 i.

Definition int64_range (i : Z) : Prop := (- 2 ^ 63 <= i < 2 ^ 63)%Z.

(** [SetForceLogout(ctx, userID)] called at the instant [now], on the
    server the client is connected to. *)
Definition SetForceLogout (srv : redis.Server) (now : Z) (userID : string)
  : redis.Server * option error :=
  let key := "user:force_logout:" +:+ userID in
  let timestamp := time.Unix now in
  match redis.Set' srv now key (strconv_FormatInt timestamp) (24 * time.Hour) with
  | (srv', Some err) => (srv', Some (fmt_Errorf_w "failed to set force logout" err))
  | (srv', None) => (srv', None)
  end.

Section ClientWrites.

Context `{Externals}.

(** [json.Marshal] of a [UserStatus], a library call like the two of
    [Externals]. *)
Variable json_Marshal_UserStatus : UserStatus.t -> string + error.

(** [SetUserStatus(ctx, userID, isActive)] called at the instant [now]. *)
Definition SetUserStatus (srv : redis.Server) (now : Z) (userID : string)
    (isActive : bool) : redis.Server * option error :=
  let key := "user:status:" +:+ userID in
  let status := UserStatus.mk isActive now in
  match json_Marshal_UserStatus status with
  | inr err => (srv, Some (fmt_Errorf_w "failed to marshal user status" err))
  | inl data =>
      match redis.Set' srv now key data (10 * time.Minute) with
      | (srv', Some err) =>
          (srv', Some (fmt_Errorf_w "failed to set user status" err))
      | (srv', None) => (srv', None)
      end
  end.

(** The client reading the server [srv] at the instant [now]. *)
Definition reading (c : Client.t) (srv : redis.Server) (now : Z) : Client.t :=
  with_store c (redis.Get srv now).

(** [loadPublicKey(path)]: the body is a stub that fails. *)
Definition loadPublicKey (path : string) : Key + error :=
  inr (fmt_Errorf
         "loadPublicKey not implemented - please implement based on your key format").

(** [NewClient(config)]; [connect] is the redis client
    [redis.NewClient] builds from the three redis fields of the
    configuration. The [Ping] that follows only decides whether a warning
    is logged. *)
Definition NewClient (connect : Config.t -> string -> string * option error)
    (config : Config.t) : option Client.t * option error :=
  match loadPublicKey (Config.PublicKeyPath config) with
  | inr err => (None, Some (fmt_Errorf_w "failed to load public key" err))
  | inl publicKey =>
      (Some (Client.mk _ config publicKey (connect config)), None)
  end.

End ClientWrites.

(** Doubles for the writes: an encoder that writes what the decoder
    double of the fixture reads, and an empty server. *)
Module WriteDoubles.

Definition marshal_status (status : UserStatus.t) : string + error :=
  inl (Fixture.status_json (UserStatus.IsActive status)).

Definition empty_server : redis.Server := redis.mkServer ∅ true.

(** 2023-01-01T00:00:00.5Z, in nanoseconds. *)
Definition new_year : Z := 1672531200500000000.

(** The client of the fixture; its store is replaced by the server read. *)
Definition reader : @Client.t (Fixture.libs Fixture.alice) :=
  Fixture.client Fixture.alice (Fixture.store_of ∅).

End WriteDoubles.

(** ** Properties of the library models *)

Example ParseInt_150 : strconv.ParseInt "150" = (150%Z, None).
Proof. reflexivity. Qed.

Example ParseInt_signs :
  strconv.ParseInt "-150" = ((-150)%Z, None) /\
  strconv.ParseInt "+7" = (7%Z, None).
Proof. split; reflexivity. Qed.

Example ParseInt_syntax :
  snd (strconv.ParseInt EmptyString)
  = Some (strconv_NumError "ParseInt" EmptyString ErrSyntax) /\
  snd (strconv.ParseInt "-") = Some (strconv_NumError "ParseInt" "-" ErrSyntax) /\
  snd (strconv.ParseInt "12a") = Some (strconv_NumError "ParseInt" "12a" ErrSyntax) /\
  snd (strconv.ParseInt "1.5") = Some (strconv_NumError "ParseInt" "1.5" ErrSyntax).
Proof. repeat split; reflexivity. Qed.

Example ParseInt_range :
  strconv.ParseInt "9223372036854775807" = (9223372036854775807%Z, None) /\
  strconv.ParseInt "-9223372036854775808" = ((-9223372036854775808)%Z, None) /\
  snd (strconv.ParseInt "9223372036854775808")
  = Some (strconv_NumError "ParseInt" "9223372036854775808" ErrRange) /\
  snd (strconv.ParseInt "99999999999999999999")
  = Some (strconv_NumError "ParseInt" "99999999999999999999" ErrRange).
Proof. repeat split; vm_compute; reflexivity. Qed.

Example TrimPrefix_once :
  strings.TrimPrefix "Bearer Bearer x" "Bearer " = "Bearer x" /\
  strings.TrimPrefix "bearer x" "Bearer " = "bearer x".
Proof. split; reflexivity. Qed.

(** ** Properties of the matcher *)

Example split_perm : strings.Split "cdn:zones:write" ":" = ["cdn"; "zones"; "write"].
Proof. reflexivity. Qed.

Example split_empty : strings.Split EmptyString ":" = [EmptyString].
Proof. reflexivity. Qed.

Example split_edges :
  strings.Split ":a::" ":" = [EmptyString; "a"; EmptyString; EmptyString].
Proof. reflexivity. Qed.

Example split_long_sep : strings.Split "a, b, c" ", " = ["a"; "b"; "c"].
Proof. reflexivity. Qed.

Section Matcher.

Lemma eqb_false_neq (a b : string) : String.eqb a b = false -> a <> b.
Proof. intros H. now apply String.eqb_neq. Qed.

(** When the segments still to be compared are as many as the required
    ones from index [i] on, the loop reads no index out of range, and it
    answers [true] exactly when every held segment grants its required
    segment. *)
Lemma wildcard_parts_loop_spec (userParts : list string) :
  forall (i : nat) (requiredParts : list string),
    length userParts = length (drop i requiredParts) ->
    exists b,
      wildcard_parts_loop i userParts requiredParts = Some b /\
      (b = true <-> Forall2 segment_grants userParts (drop i requiredParts)).
Proof.
  induction userParts as [|u rest IH]; intros i rs Hlen; simpl in *.
  - destruct (drop i rs) eqn:E; [|discriminate].
    exists true. split; [reflexivity|]. split; auto.
  - destruct (rs !! i) as [r|] eqn:Hi.
    2:{ apply lookup_ge_None in Hi. rewrite drop_ge in Hlen by lia.
        discriminate. }
    rewrite (drop_S _ _ _ Hi) in *. simpl in Hlen.
    destruct (IH (S i) rs) as [b [Hb Hspec]]; [lia|].
    destruct (String.eqb u "*") eqn:Estar.
    + apply String.eqb_eq in Estar. exists b. split; [exact Hb|].
      rewrite Hspec. split.
      * intros HF. constructor; [now left | exact HF].
      * intros HF. now inversion HF.
    + destruct (String.eqb u r) eqn:Eur.
      * apply String.eqb_eq in Eur. exists b. split; [exact Hb|].
        rewrite Hspec. split.
        -- intros HF. constructor; [now right | exact HF].
        -- intros HF. now inversion HF.
      * exists false. split; [reflexivity|]. split; [discriminate|].
        intros HF. inversion HF as [|? ? ? ? Hg _]; subst.
        apply eqb_false_neq in Estar, Eur. destruct Hg; contradiction.
Qed.

(** After the length test of [matchesWildcardPermission] the loop never
    indexes out of range. *)
Lemma wildcard_parts_loop_total (userParts requiredParts : list string) :
  length userParts = length requiredParts ->
  is_Some (wildcard_parts_loop 0 userParts requiredParts).
Proof.
  intros Hlen.
  destruct (wildcard_parts_loop_spec userParts 0 requiredParts) as [b [Hb _]].
  - now rewrite drop_0.
  - rewrite Hb. now exists b.
Qed.

Lemma matchesWildcardPermission_spec (userPerm requiredPerm : string) :
  matchesWildcardPermission userPerm requiredPerm = true <->
  strings.Contains userPerm "*" = true /\
  length (strings.Split userPerm ":") = length (strings.Split requiredPerm ":") /\
  Forall2 segment_grants
    (strings.Split userPerm ":") (strings.Split requiredPerm ":").
Proof.
  unfold matchesWildcardPermission.
  set (us := strings.Split userPerm ":").
  set (rs := strings.Split requiredPerm ":").
  destruct (strings.Contains userPerm "*"); cbn [negb].
  2:{ split; [discriminate | intros [H _]; discriminate]. }
  destruct (Nat.eqb_spec (length us) (length rs)) as [Hlen|Hlen]; cbn [negb].
  2:{ split; [discriminate | intros [_ [H _]]; contradiction]. }
  destruct (wildcard_parts_loop_spec us 0 rs) as [b [Hb Hspec]].
  { now rewrite drop_0. }
  rewrite Hb. rewrite drop_0 in Hspec. rewrite Hspec. tauto.
Qed.

Lemma checkPermission_spec (userPermissions : list string)
    (requiredPermission : string) :
  checkPermission userPermissions requiredPermission = true <->
  exists perm, In perm userPermissions /\ perm_grants perm requiredPermission.
Proof.
  induction userPermissions as [|p rest IH]; simpl.
  - split; [discriminate | intros [? [[] _]]].
  - destruct (String.eqb p requiredPermission) eqn:E1.
    { apply String.eqb_eq in E1. split; [|reflexivity].
      intros _. exists p. split; [now left | now left]. }
    destruct (String.eqb p "*") eqn:E2; simpl.
    { apply String.eqb_eq in E2. split; [|reflexivity].
      intros _. exists p. split; [now left | right; left; now left]. }
    destruct (String.eqb p "*:*:*") eqn:E3; simpl.
    { apply String.eqb_eq in E3. split; [|reflexivity].
      intros _. exists p. split; [now left | right; left; now right]. }
    destruct (matchesWildcardPermission p requiredPermission) eqn:E4.
    { split; [|reflexivity].
      intros _. exists p. split; [now left | right; now right]. }
    rewrite IH. apply eqb_false_neq in E1, E2, E3.
    split.
    + intros [q [Hin Hg]]. exists q. split; [now right | exact Hg].
    + intros [q [[Heq|Hin] Hg]].
      * subst q. destruct Hg as [Hg|[[Hg|Hg]|Hg]];
          [contradiction | contradiction | contradiction | congruence].
      * exists q. split; assumption.
Qed.

Lemma hasAnyPermission_spec (userPerms permissions : list string) :
  hasAnyPermission userPerms permissions = true <->
  exists requiredPerm,
    In requiredPerm permissions /\
    checkPermission userPerms requiredPerm = true.
Proof.
  induction permissions as [|r rest IH]; simpl.
  - split; [discriminate | intros [? [[] _]]].
  - destruct (checkPermission userPerms r) eqn:E.
    + split; [|reflexivity]. intros _. exists r. split; [now left | exact E].
    + rewrite IH. split.
      * intros [q [Hin Hq]]. exists q. split; [now right | exact Hq].
      * intros [q [[Heq|Hin] Hq]]; [subst q; congruence |].
        exists q. split; assumption.
Qed.

End Matcher.

(** ** Scenarios on the fixture *)

(** Status absent, marker at 150, no permission entry, token issued at 100
    with [["a:b:c"]]: active, forced logout, and no permission at all. *)
Example scenario_spec_96 :
  ValidateTokenWithDynamicAuth
    (Fixture.client Fixture.alice (Fixture.store_of Fixture.marker_150))
    Fixture.token_text
  = Returns (Some (AuthResult.mk Fixture.alice [] true true), None).
Proof. vm_compute. reflexivity. Qed.

(** The store cannot be reached: the three reads fail and the three
    defaults apply. *)
Example scenario_store_down :
  ValidateTokenWithDynamicAuth
    (Fixture.client Fixture.alice Fixture.store_down) Fixture.token_text
  = Returns (Some (AuthResult.mk Fixture.alice ["a:b:c"] true false), None).
Proof. vm_compute. reflexivity. Qed.

(** A stored permission entry replaces the permissions of the token. *)
Example scenario_stored_permissions :
  ValidateTokenWithDynamicAuth
    (Fixture.client Fixture.alice (Fixture.store_of Fixture.stored_permissions))
    Fixture.token_text
  = Returns
      (Some (AuthResult.mk Fixture.alice ["cdn:zones:read"; EmptyString; "dns:*:*"]
               true false), None).
Proof. vm_compute. reflexivity. Qed.

(** A token that is not the signed one is refused, whatever the store. *)
Example scenario_bad_token :
  ValidateTokenWithDynamicAuth
    (Fixture.client Fixture.alice Fixture.store_down) "tampered"
  = Returns
      (None,
       Some (fmt_Errorf_w "token validation failed"
               (fmt_Errorf_w "failed to parse token"
                  (lib_error "token is malformed")))).
Proof. vm_compute. reflexivity. Qed.

(** A verified token without an issued-at claim: the resolution of an
    active account panics, that of an inactive account returns. *)
Example scenario_undated :
  ValidateTokenWithDynamicAuth
    (Fixture.client Fixture.undated (Fixture.store_of ∅)) Fixture.token_text
  = Panics "nil pointer dereference" /\
  ValidateTokenWithDynamicAuth
    (Fixture.client Fixture.undated
       (Fixture.store_of Fixture.inactive_marker_150)) Fixture.token_text
  = Returns (Some (AuthResult.mk Fixture.undated [] false false), None).
Proof. split; vm_compute; reflexivity. Qed.

(** ** Properties of the client *)

Section ClientProperties.

Context `{Externals}.

Implicit Types (c : Client.t) (claims : Claims.t).

(** Token verification never reads the store. *)
Lemma ValidateToken_with_store c store tokenString :
  ValidateToken (with_store c store) tokenString = ValidateToken c tokenString.
Proof. reflexivity. Qed.

(** [ValidateToken] gives claims or an error, never both, never neither. *)
Lemma ValidateToken_cases c tokenString :
  (exists claims, ValidateToken c tokenString = (Some claims, None)) \/
  (exists err, ValidateToken c tokenString = (None, Some err)).
Proof.
  unfold ValidateToken.
  destruct (jwt_ParseWithClaims _ _) as [token|err]; [|right; eauto].
  destruct (jwt.TokenClaims token) as [claims|]; [|right; eauto].
  destruct (jwt.Valid token); cbn [negb]; [|right; eauto].
  destruct (String.eqb _ _); cbn [negb]; [left|right]; eauto.
Qed.

(** *** The three store reads, reply by reply *)

Lemma CheckUserStatus_absent c userID :
  store_absent c (status_key userID) ->
  CheckUserStatus c userID = (true, None).
Proof.
  intros [val Hget]. unfold CheckUserStatus. fold (status_key userID).
  now rewrite Hget.
Qed.

Lemma CheckUserStatus_fails c userID :
  store_fails c (status_key userID) ->
  exists err, CheckUserStatus c userID = (true, Some err).
Proof.
  intros [val [err [Hget Hne]]]. unfold CheckUserStatus.
  fold (status_key userID). rewrite Hget. exists err.
  destruct err; congruence.
Qed.

Lemma CheckUserStatus_undecodable c userID val err :
  store_holds c (status_key userID) val ->
  json_Unmarshal_UserStatus val = inr err ->
  CheckUserStatus c userID
  = (true, Some (fmt_Errorf_w "failed to parse user status" err)).
Proof.
  intros Hget Hdec. unfold CheckUserStatus. fold (status_key userID).
  rewrite Hget, Hdec. reflexivity.
Qed.

Lemma CheckUserStatus_decoded c userID val status :
  store_holds c (status_key userID) val ->
  json_Unmarshal_UserStatus val = inl status ->
  CheckUserStatus c userID = (UserStatus.IsActive status, None).
Proof.
  intros Hget Hdec. unfold CheckUserStatus. fold (status_key userID).
  rewrite Hget, Hdec. reflexivity.
Qed.

(** An error of [CheckUserStatus] always comes with the answer [true]. *)
Lemma CheckUserStatus_error_true c userID b err :
  CheckUserStatus c userID = (b, Some err) -> b = true.
Proof.
  unfold CheckUserStatus.
  destruct (Client.redisClient c _) as [val [e|]].
  - destruct e; intros [= <- _]; reflexivity.
  - destruct (json_Unmarshal_UserStatus val); intros Heq;
      inversion Heq; reflexivity.
Qed.

Lemma CheckForceLogout_absent c userID issuedAt :
  store_absent c (force_logout_key userID) ->
  CheckForceLogout c userID issuedAt = (false, None).
Proof.
  intros [val Hget]. unfold CheckForceLogout. fold (force_logout_key userID).
  now rewrite Hget.
Qed.

Lemma CheckForceLogout_fails c userID issuedAt :
  store_fails c (force_logout_key userID) ->
  exists err, CheckForceLogout c userID issuedAt = (false, Some err).
Proof.
  intros [val [err [Hget Hne]]]. unfold CheckForceLogout.
  fold (force_logout_key userID). rewrite Hget. exists err.
  destruct err; congruence.
Qed.

Lemma CheckForceLogout_undecodable c userID issuedAt val n err :
  store_holds c (force_logout_key userID) val ->
  strconv.ParseInt val = (n, Some err) ->
  CheckForceLogout c userID issuedAt
  = (false, Some (fmt_Errorf_w "failed to parse force logout timestamp" err)).
Proof.
  intros Hget Hdec. unfold CheckForceLogout. fold (force_logout_key userID).
  rewrite Hget, Hdec. reflexivity.
Qed.

Lemma CheckForceLogout_decoded c userID issuedAt val marker :
  store_holds c (force_logout_key userID) val ->
  strconv.ParseInt val = (marker, None) ->
  CheckForceLogout c userID issuedAt = ((issuedAt <? marker)%Z, None).
Proof.
  intros Hget Hdec. unfold CheckForceLogout. fold (force_logout_key userID).
  rewrite Hget, Hdec. reflexivity.
Qed.

(** An error of [CheckForceLogout] always comes with the answer [false]. *)
Lemma CheckForceLogout_error_false c userID issuedAt b err :
  CheckForceLogout c userID issuedAt = (b, Some err) -> b = false.
Proof.
  unfold CheckForceLogout.
  destruct (Client.redisClient c _) as [val [e|]].
  - destruct e; intros [= <- _]; reflexivity.
  - destruct (strconv.ParseInt val) as [n [e|]]; intros Heq;
      inversion Heq; reflexivity.
Qed.

Lemma GetUserDynamicPermissions_fails c userID :
  store_fails c (dynamic_permissions_key userID) ->
  exists err, GetUserDynamicPermissions c userID = ([], Some err).
Proof.
  intros [val [err [Hget Hne]]]. unfold GetUserDynamicPermissions.
  fold (dynamic_permissions_key userID). rewrite Hget. exists err.
  destruct err; congruence.
Qed.

Lemma GetUserDynamicPermissions_undecodable c userID val err :
  store_holds c (dynamic_permissions_key userID) val ->
  json_Unmarshal_map val = inr err ->
  GetUserDynamicPermissions c userID
  = ([], Some (fmt_Errorf_w "failed to parse cached permissions" err)).
Proof.
  intros Hget Hdec. unfold GetUserDynamicPermissions.
  fold (dynamic_permissions_key userID). rewrite Hget, Hdec. reflexivity.
Qed.

(** A decoded object without a [permissions] array is refused too. *)
Lemma GetUserDynamicPermissions_no_array c userID val
    (cacheData : gmap string JValue) :
  store_holds c (dynamic_permissions_key userID) val ->
  json_Unmarshal_map val = inl cacheData ->
  (forall permissionsData,
      cacheData !! "permissions" <> Some (JArray permissionsData)) ->
  GetUserDynamicPermissions c userID
  = ([], Some (fmt_Errorf "invalid permissions format in cache")).
Proof.
  intros Hget Hdec Hno. unfold GetUserDynamicPermissions.
  fold (dynamic_permissions_key userID). rewrite Hget, Hdec.
  destruct (cacheData !! "permissions") as [[]|] eqn:E; try reflexivity.
  exfalso. eapply Hno. reflexivity.
Qed.

(** The absent key is answered with the nil slice and no error. *)
Lemma GetUserDynamicPermissions_absent c userID :
  store_absent c (dynamic_permissions_key userID) ->
  GetUserDynamicPermissions c userID = ([], None).
Proof.
  intros [val Hget]. unfold GetUserDynamicPermissions.
  fold (dynamic_permissions_key userID). now rewrite Hget.
Qed.

End ClientProperties.

Section Resolver.

Context `{Externals}.

Implicit Types (c : Client.t) (claims : Claims.t).

(** An inactive account ends the resolution at once. *)
Lemma resolve_inactive c tokenString claims :
  ValidateToken c tokenString = (Some claims, None) ->
  CheckUserStatus c (Claims.UserID claims) = (false, None) ->
  ValidateTokenWithDynamicAuth c tokenString
  = Returns (Some (AuthResult.mk claims [] false false), None).
Proof.
  intros Hv Hs. unfold ValidateTokenWithDynamicAuth. rewrite Hv, Hs.
  reflexivity.
Qed.

(** On an active account the resolution goes through the two other
    reads and returns a result. *)
Lemma resolve_active c tokenString claims issuedAt :
  ValidateToken c tokenString = (Some claims, None) ->
  Claims.IssuedAt claims = Some issuedAt ->
  fst (CheckUserStatus c (Claims.UserID claims)) = true ->
  ValidateTokenWithDynamicAuth c tokenString
  = Returns
      (Some (AuthResult.mk claims
               (match GetUserDynamicPermissions c (Claims.UserID claims) with
                | (_, Some _) => Claims.Permissions claims
                | (dynamicPermissions, None) => dynamicPermissions
                end)
               true
               (match CheckForceLogout c (Claims.UserID claims) issuedAt with
                | (_, Some _) => false
                | (shouldForceLogout, None) => shouldForceLogout
                end)),
       None).
Proof.
  intros Hv Hiat Hact. unfold ValidateTokenWithDynamicAuth. rewrite Hv.
  destruct (CheckUserStatus c (Claims.UserID claims)) as [b e].
  cbn [fst] in Hact. subst b.
  assert (Hb : match e with Some _ => true | None => true end = true)
    by (destruct e; reflexivity).
  rewrite Hb. cbn [negb]. rewrite Hiat.
  destruct (CheckForceLogout c (Claims.UserID claims) issuedAt) as [sfl e1].
  destruct (GetUserDynamicPermissions c (Claims.UserID claims)) as [dp e2].
  destruct e1, e2; reflexivity.
Qed.

(** A verified token without an issued-at claim makes the resolution of
    an active account panic at [claims.IssuedAt.Unix()]. *)
Lemma resolve_without_issued_at c tokenString claims :
  ValidateToken c tokenString = (Some claims, None) ->
  Claims.IssuedAt claims = None ->
  fst (CheckUserStatus c (Claims.UserID claims)) = true ->
  ValidateTokenWithDynamicAuth c tokenString = Panics "nil pointer dereference".
Proof.
  intros Hv Hiat Hact. unfold ValidateTokenWithDynamicAuth. rewrite Hv.
  destruct (CheckUserStatus c (Claims.UserID claims)) as [b e].
  cbn [fst] in Hact. subst b.
  destruct e; cbn [negb]; rewrite Hiat; reflexivity.
Qed.

(** On a verified token that carries an issued-at claim, the resolution
    returns a result whose [IsActive] is [true] when the account-status
    key is absent, when the read fails and when the stored value is
    undecodable, and is the stored [is_active] when the value decodes.
    Without the issued-at claim it panics on an active account
    ([resolve_without_issued_at]). *)
Theorem resolve_is_active c tokenString claims issuedAt :
  ValidateToken c tokenString = (Some claims, None) ->
  Claims.IssuedAt claims = Some issuedAt ->
  exists result,
    ValidateTokenWithDynamicAuth c tokenString = Returns (Some result, None) /\
    (store_absent c (status_key (Claims.UserID claims)) ->
     AuthResult.IsActive result = true) /\
    (store_fails c (status_key (Claims.UserID claims)) ->
     AuthResult.IsActive result = true) /\
    (forall val err,
        store_holds c (status_key (Claims.UserID claims)) val ->
        json_Unmarshal_UserStatus val = inr err ->
        AuthResult.IsActive result = true) /\
    (forall val status,
        store_holds c (status_key (Claims.UserID claims)) val ->
        json_Unmarshal_UserStatus val = inl status ->
        AuthResult.IsActive result = UserStatus.IsActive status).
Proof.
  intros Hv Hiat.
  destruct (CheckUserStatus c (Claims.UserID claims)) as [b e] eqn:Hs.
  assert (Hcases : (b = false /\ e = None) \/ b = true).
  { destruct b; [now right|]. destruct e as [err|]; [|now left].
    apply CheckUserStatus_error_true in Hs. discriminate. }
  destruct Hcases as [[-> ->] | ->].
  - eexists. split; [apply (resolve_inactive _ _ _ Hv Hs)|].
    cbn [AuthResult.IsActive].
    split; [|split; [|split]].
    + intros Ha. rewrite (CheckUserStatus_absent _ _ Ha) in Hs. discriminate.
    + intros Hf. destruct (CheckUserStatus_fails _ _ Hf) as [err Hf'].
      rewrite Hf' in Hs. discriminate.
    + intros val err Hh Hd.
      rewrite (CheckUserStatus_undecodable _ _ _ _ Hh Hd) in Hs. discriminate.
    + intros val status Hh Hd.
      rewrite (CheckUserStatus_decoded _ _ _ _ Hh Hd) in Hs. congruence.
  - eexists. split.
    + apply (resolve_active _ _ _ _ Hv Hiat). now rewrite Hs.
    + cbn [AuthResult.IsActive]. repeat split; auto.
      intros val status Hh Hd.
      rewrite (CheckUserStatus_decoded _ _ _ _ Hh Hd) in Hs. congruence.
Qed.

(** C5: for every valid token, when the stored account status decodes
    with [is_active] false, the resolution returns at once the result
    with [IsActive] false, [ShouldForceLogout] false and no permissions;
    it is the same on every store that answers the status key alike,
    whatever that store holds for the two other keys. *)
Theorem resolve_inactive_short_circuit c tokenString claims val status :
  ValidateToken c tokenString = (Some claims, None) ->
  store_holds c (status_key (Claims.UserID claims)) val ->
  json_Unmarshal_UserStatus val = inl status ->
  UserStatus.IsActive status = false ->
  ValidateTokenWithDynamicAuth c tokenString
  = Returns (Some (AuthResult.mk claims [] false false), None) /\
  forall store,
    store (status_key (Claims.UserID claims))
    = Client.redisClient c (status_key (Claims.UserID claims)) ->
    ValidateTokenWithDynamicAuth (with_store c store) tokenString
    = Returns (Some (AuthResult.mk claims [] false false), None).
Proof.
  intros Hv Hh Hd Hina. split.
  - apply (resolve_inactive _ _ _ Hv).
    rewrite (CheckUserStatus_decoded _ _ _ _ Hh Hd). now rewrite Hina.
  - intros store Hsame. apply resolve_inactive.
    + now rewrite ValidateToken_with_store.
    + assert (Hh' : store_holds (with_store c store)
                      (status_key (Claims.UserID claims)) val).
      { unfold store_holds. cbn [with_store Client.redisClient].
        now rewrite Hsame. }
      rewrite (CheckUserStatus_decoded _ _ _ _ Hh' Hd). now rewrite Hina.
Qed.

(** A verification error is returned wrapped, with no result. *)
Lemma resolve_verification_error c tokenString err :
  ValidateToken c tokenString = (None, Some err) ->
  ValidateTokenWithDynamicAuth c tokenString
  = Returns (None, Some (fmt_Errorf_w "token validation failed" err)).
Proof.
  intros Hv. unfold ValidateTokenWithDynamicAuth. now rewrite Hv.
Qed.

(** Once the token is verified, no reply of the store makes the
    resolution return an error. *)
Lemma resolve_verified_no_error c tokenString claims result err :
  ValidateToken c tokenString = (Some claims, None) ->
  ValidateTokenWithDynamicAuth c tokenString <> Returns (result, Some err).
Proof.
  intros Hv. unfold ValidateTokenWithDynamicAuth. rewrite Hv.
  destruct (CheckUserStatus _ _) as [b e].
  destruct (negb _); [discriminate|].
  destruct (Claims.IssuedAt claims); [|discriminate].
  destruct (CheckForceLogout _ _ _) as [sfl e1].
  destruct (GetUserDynamicPermissions _ _) as [dp e2].
  discriminate.
Qed.

(** For every token string and every behaviour of the store, the
    resolution returns an error exactly when token verification, which
    does not read the store, returns one. *)
Theorem resolve_error_iff_verification_error c store tokenString :
  (exists result err,
      ValidateTokenWithDynamicAuth (with_store c store) tokenString
      = Returns (result, Some err))
  <->
  (exists err, ValidateToken c tokenString = (None, Some err)).
Proof.
  split.
  - intros [result [err Hout]].
    destruct (ValidateToken_cases c tokenString) as [[claims Hv]|[e Hv]].
    + exfalso. rewrite <- (ValidateToken_with_store c store) in Hv.
      exact (resolve_verified_no_error _ _ _ _ _ Hv Hout).
    + now exists e.
  - intros [err Hv]. rewrite <- (ValidateToken_with_store c store) in Hv.
    eexists _, _. apply (resolve_verification_error _ _ _ Hv).
Qed.

(** C4, as amended: for every valid token carrying an issued-at claim
    whose account status resolves to active, the resolution returns a
    result whose [ShouldForceLogout] is [true] exactly when the decoded
    marker is strictly greater than the issued-at timestamp, and is
    [false] when the marker is absent, when the read fails and when the
    stored value is undecodable. *)
Theorem resolve_force_logout c tokenString claims issuedAt :
  ValidateToken c tokenString = (Some claims, None) ->
  Claims.IssuedAt claims = Some issuedAt ->
  fst (CheckUserStatus c (Claims.UserID claims)) = true ->
  exists result,
    ValidateTokenWithDynamicAuth c tokenString = Returns (Some result, None) /\
    (forall val marker,
        store_holds c (force_logout_key (Claims.UserID claims)) val ->
        strconv.ParseInt val = (marker, None) ->
        (AuthResult.ShouldForceLogout result = true <-> (issuedAt < marker)%Z)) /\
    (store_absent c (force_logout_key (Claims.UserID claims)) ->
     AuthResult.ShouldForceLogout result = false) /\
    (store_fails c (force_logout_key (Claims.UserID claims)) ->
     AuthResult.ShouldForceLogout result = false) /\
    (forall val n err,
        store_holds c (force_logout_key (Claims.UserID claims)) val ->
        strconv.ParseInt val = (n, Some err) ->
        AuthResult.ShouldForceLogout result = false).
Proof.
  intros Hv Hiat Hact. eexists. split.
  { apply (resolve_active _ _ _ _ Hv Hiat Hact). }
  cbn [AuthResult.ShouldForceLogout].
  split; [|split; [|split]].
  - intros val marker Hh Hd.
    rewrite (CheckForceLogout_decoded _ _ _ _ _ Hh Hd).
    apply Z.ltb_lt.
  - intros Ha. now rewrite (CheckForceLogout_absent _ _ _ Ha).
  - intros Hf. destruct (CheckForceLogout_fails _ _ issuedAt Hf) as [err ->].
    reflexivity.
  - intros val n err Hh Hd.
    now rewrite (CheckForceLogout_undecodable _ _ _ _ _ _ Hh Hd).
Qed.

(** C1, as amended: for every valid token carrying an issued-at claim
    whose account status resolves to active, when the read of the
    dynamic-permission entry fails or the stored value is undecodable
    (not JSON, or without a [permissions] array), the resolution returns
    a result whose [DynamicPermissions] is the token's [Permissions]
    list, unchanged in order and content. *)
Theorem resolve_permissions_fallback c tokenString claims issuedAt :
  ValidateToken c tokenString = (Some claims, None) ->
  Claims.IssuedAt claims = Some issuedAt ->
  fst (CheckUserStatus c (Claims.UserID claims)) = true ->
  exists result,
    ValidateTokenWithDynamicAuth c tokenString = Returns (Some result, None) /\
    (store_fails c (dynamic_permissions_key (Claims.UserID claims)) ->
     AuthResult.DynamicPermissions result = Claims.Permissions claims) /\
    (forall val err,
        store_holds c (dynamic_permissions_key (Claims.UserID claims)) val ->
        json_Unmarshal_map val = inr err ->
        AuthResult.DynamicPermissions result = Claims.Permissions claims) /\
    (forall val (cacheData : gmap string JValue),
        store_holds c (dynamic_permissions_key (Claims.UserID claims)) val ->
        json_Unmarshal_map val = inl cacheData ->
        (forall permissionsData,
            cacheData !! "permissions" <> Some (JArray permissionsData)) ->
        AuthResult.DynamicPermissions result = Claims.Permissions claims).
Proof.
  intros Hv Hiat Hact. eexists. split.
  { apply (resolve_active _ _ _ _ Hv Hiat Hact). }
  cbn [AuthResult.DynamicPermissions].
  split; [|split].
  - intros Hf. destruct (GetUserDynamicPermissions_fails _ _ Hf) as [err ->].
    reflexivity.
  - intros val err Hh Hd.
    now rewrite (GetUserDynamicPermissions_undecodable _ _ _ _ Hh Hd).
  - intros val cacheData Hh Hd Hno.
    now rewrite (GetUserDynamicPermissions_no_array _ _ _ _ Hh Hd Hno).
Qed.

(** *** The decoded permission array *)

(** The loop writes the strings of the array over the empty strings of
    the fresh slice, index by index, and leaves the other places. *)
Lemma fill_permissions_spec (permissionsData : list JValue) :
  forall (i : nat) (filled : list string),
    length filled = i ->
    fill_permissions i permissionsData
      (filled ++ replicate (length permissionsData) EmptyString)%list
    = (filled ++ map permission_of permissionsData)%list.
Proof.
  induction permissionsData as [|perm rest IH]; intros i filled Hlen.
  - reflexivity.
  - assert (Hstep : forall s : string,
               fill_permissions (S i) rest
                 (filled ++ s :: replicate (length rest) EmptyString)%list
               = (filled ++ s :: map permission_of rest)%list).
    { intros s.
      rewrite !(cons_middle s), !app_assoc. apply IH.
      rewrite length_app. simpl. lia. }
    cbn [length replicate map].
    destruct perm; cbn [fill_permissions permission_of]; try apply Hstep.
    rewrite insert_app_r_alt by lia.
    replace (i - length filled) with 0 by lia.
    cbn [insert list_insert]. apply Hstep.
Qed.

(** C10: when the stored dynamic-permission value decodes to an object
    whose [permissions] field is an array, [GetUserDynamicPermissions]
    returns no error and a list as long as the array, holding each
    string element at its index and the empty string at the index of
    every element that is not a string. *)
Theorem GetUserDynamicPermissions_decoded_array c userID val
    (cacheData : gmap string JValue) (permissionsData : list JValue) :
  store_holds c (dynamic_permissions_key userID) val ->
  json_Unmarshal_map val = inl cacheData ->
  cacheData !! "permissions" = Some (JArray permissionsData) ->
  exists permissions,
    GetUserDynamicPermissions c userID = (permissions, None) /\
    length permissions = length permissionsData /\
    (forall (i : nat) (s : string),
        permissionsData !! i = Some (JString s) ->
        permissions !! i = Some s) /\
    (forall (i : nat) (perm : JValue),
        permissionsData !! i = Some perm ->
        (forall s, perm <> JString s) ->
        permissions !! i = Some EmptyString).
Proof.
  intros Hh Hd Hp. exists (map permission_of permissionsData).
  split; [|split; [|split]].
  - unfold GetUserDynamicPermissions. fold (dynamic_permissions_key userID).
    rewrite Hh, Hd, Hp. f_equal.
    apply (fill_permissions_spec permissionsData 0 []). reflexivity.
  - apply length_map.
  - intros i s Hi. rewrite list_lookup_fmap, Hi. reflexivity.
  - intros i perm Hi Hns. rewrite list_lookup_fmap, Hi. cbn.
    destruct perm; try reflexivity. now destruct (Hns s).
Qed.

(** *** Token verification *)

(** C8: token verification fails for every token whose issuer claim is
    not exactly the configured issuer, also when the parser accepted the
    signature, the algorithm and the expiry ([Valid] is true); the error
    is then the issuer error. *)
Theorem ValidateToken_rejects_other_issuer c tokenString token claims :
  jwt_ParseWithClaims (strings.TrimPrefix tokenString "Bearer ") (keyfunc c)
  = inl token ->
  jwt.TokenClaims token = jwt.ClaimsPtr claims ->
  Claims.Issuer claims <> Config.Issuer (Client.config c) ->
  (exists err, ValidateToken c tokenString = (None, Some err)) /\
  (jwt.Valid token = true ->
   ValidateToken c tokenString
   = (None, Some (fmt_Errorf "invalid token issuer"))).
Proof.
  intros Hp Hc Hiss. unfold ValidateToken. rewrite Hp, Hc.
  apply String.eqb_neq in Hiss. rewrite Hiss.
  destruct (jwt.Valid token); cbn [negb]; split; eauto; discriminate.
Qed.

(** Verified claims carry the configured issuer. *)
Lemma ValidateToken_issuer c tokenString claims :
  ValidateToken c tokenString = (Some claims, None) ->
  Claims.Issuer claims = Config.Issuer (Client.config c).
Proof.
  unfold ValidateToken.
  destruct (jwt_ParseWithClaims _ _) as [token|err]; [|discriminate].
  destruct (jwt.TokenClaims token) as [cl|]; [|discriminate].
  destruct (jwt.Valid token); cbn [negb]; [|discriminate].
  destruct (String.eqb_spec (Claims.Issuer cl) (Config.Issuer (Client.config c)));
    cbn [negb]; [|discriminate].
  now intros [= <-].
Qed.

Lemma prefix_prepended (s prefix : string) :
  String.prefix prefix (prefix +:+ s) = true.
Proof.
  induction prefix as [|a p IH]; simpl.
  - now destruct s.
  - destruct (ascii_dec a a); [exact IH | contradiction].
Qed.

Lemma drop_prepended (s prefix : string) :
  strings.drop (String.length prefix) (prefix +:+ s) = s.
Proof. induction prefix as [|a p IH]; simpl; [reflexivity | exact IH]. Qed.

Lemma TrimPrefix_prepended (s prefix : string) :
  strings.TrimPrefix (prefix +:+ s) prefix = s.
Proof.
  unfold strings.TrimPrefix, strings.HasPrefix.
  rewrite prefix_prepended. apply drop_prepended.
Qed.

Lemma TrimPrefix_without (s prefix : string) :
  strings.HasPrefix s prefix = false -> strings.TrimPrefix s prefix = s.
Proof. unfold strings.TrimPrefix. now intros ->. Qed.

(** C9, as amended: for every token string [t] that does not itself
    begin with ["Bearer "], [ValidateToken] gives on ["Bearer "] followed
    by [t] what it gives on [t]: it strips one leading prefix, and only
    one, before parsing. *)
Theorem ValidateToken_strips_one_Bearer c (t : string) :
  strings.HasPrefix t "Bearer " = false ->
  ValidateToken c ("Bearer " +:+ t) = ValidateToken c t.
Proof.
  intros Hnp. unfold ValidateToken.
  rewrite TrimPrefix_prepended, (TrimPrefix_without _ _ Hnp). reflexivity.
Qed.

End Resolver.

(** ** The matcher, claim by claim *)

(** C7: a segment-wise wildcard match succeeds only if the held and the
    required permission split on [":"] into the same number of segments
    and every held segment is the wildcard or the required segment at the
    same place; [{"cdn:*:*"}] grants ["cdn:zones:write"] and not
    ["dns:zones:write"], and [{"cdn:zones:*"}] does not grant
    ["cdn:zones:write:extra"]. *)
Theorem matchesWildcardPermission_segmentwise :
  (forall userPerm requiredPerm : string,
      matchesWildcardPermission userPerm requiredPerm = true ->
      length (strings.Split userPerm ":") = length (strings.Split requiredPerm ":") /\
      Forall2 segment_grants
        (strings.Split userPerm ":") (strings.Split requiredPerm ":")) /\
  checkPermission ["cdn:*:*"] "cdn:zones:write" = true /\
  checkPermission ["cdn:*:*"] "dns:zones:write" = false /\
  checkPermission ["cdn:zones:*"] "cdn:zones:write:extra" = false.
Proof.
  split; [|repeat split; reflexivity].
  intros userPerm requiredPerm Hm.
  apply matchesWildcardPermission_spec in Hm. tauto.
Qed.

Lemma matchesWildcardPermission_segmentwise_witness :
  matchesWildcardPermission "cdn:*:*" "cdn:zones:write" = true /\
  length (strings.Split "cdn:*:*" ":") = length (strings.Split "cdn:zones:write" ":") /\
  Forall2 segment_grants
    (strings.Split "cdn:*:*" ":") (strings.Split "cdn:zones:write" ":").
Proof.
  split; [reflexivity|].
  apply (proj1 matchesWildcardPermission_segmentwise "cdn:*:*" "cdn:zones:write").
  reflexivity.
Defined.

(** C2, as amended: the loop of [RequireAnyPermission] answers [true]
    exactly when some entry of the required list is granted by the held
    list under [checkPermission]; for the held list [["admin:*:*"]] and the
    required list [["cdn:zones:write"; "dns:zones:read"]] it answers
    [false], the held first segment being neither the wildcard nor ["cdn"]
    nor ["dns"]. *)
Theorem hasAnyPermission_iff_some_required :
  (forall userPerms permissions : list string,
      hasAnyPermission userPerms permissions = true <->
      exists requiredPerm,
        In requiredPerm permissions /\
        checkPermission userPerms requiredPerm = true) /\
  hasAnyPermission ["admin:*:*"] ["cdn:zones:write"; "dns:zones:read"] = false.
Proof.
  split; [exact hasAnyPermission_spec | reflexivity].
Qed.

(** The held list [["admin:*:*"]] is refused on both required entries, and
    the handler answers 403. *)
Lemma hasAnyPermission_admin_wildcard_refused :
  hasAnyPermission ["admin:*:*"] ["cdn:zones:write"; "dns:zones:read"] = false /\
  checkPermission ["admin:*:*"] "cdn:zones:write" = false /\
  checkPermission ["admin:*:*"] "dns:zones:read" = false /\
  RequireAnyPermission ["cdn:zones:write"; "dns:zones:read"]
    {[ "permissions" := CtxStrings ["admin:*:*"] ]}
  = Abort 403
      "Insufficient permissions: required one of [cdn:zones:write, dns:zones:read]".
Proof. repeat split; vm_compute; reflexivity. Qed.

(** ** The client, on the fixture *)

Module OnFixture.

Import Fixture.

Lemma resolve_is_active_witness :
  @ValidateToken (libs alice) (client alice (store_of ∅)) token_text
  = (Some alice, None) /\
  Claims.IssuedAt alice = Some 100%Z /\
  exists result,
    @ValidateTokenWithDynamicAuth (libs alice) (client alice (store_of ∅))
      token_text = Returns (Some result, None) /\
    AuthResult.IsActive result = true.
Proof.
  split; [reflexivity|]. split; [reflexivity|].
  destruct (@resolve_is_active (libs alice) (client alice (store_of ∅))
              token_text alice 100%Z eq_refl eq_refl)
    as [result [Hres [Habsent _]]].
  exists result. split; [exact Hres|].
  apply Habsent. exists EmptyString. reflexivity.
Defined.

Lemma resolve_inactive_short_circuit_witness :
  @ValidateToken (libs alice)
    (client alice (store_of inactive_marker_150)) token_text
  = (Some alice, None) /\
  store_of inactive_marker_150 (status_key "u1") = (status_json false, None) /\
  unmarshal_status (status_json false) = inl (UserStatus.mk false 0) /\
  @ValidateTokenWithDynamicAuth (libs alice)
    (client alice (store_of inactive_marker_150)) token_text
  = Returns (Some (AuthResult.mk alice [] false false), None).
Proof.
  split; [reflexivity|]. split; [reflexivity|]. split; [reflexivity|].
  apply (proj1 (@resolve_inactive_short_circuit (libs alice)
                  (client alice (store_of inactive_marker_150)) token_text
                  alice (status_json false) (UserStatus.mk false 0)
                  eq_refl eq_refl eq_refl eq_refl)).
Defined.

Lemma resolve_force_logout_witness :
  @ValidateToken (libs alice) active_client token_text = (Some alice, None) /\
  Claims.IssuedAt alice = Some 100%Z /\
  fst (@CheckUserStatus (libs alice) active_client "u1") = true /\
  strconv.ParseInt "150" = (150%Z, None) /\
  exists result,
    @ValidateTokenWithDynamicAuth (libs alice) active_client token_text
    = Returns (Some result, None) /\
    AuthResult.ShouldForceLogout result = true.
Proof.
  split; [reflexivity|]. split; [reflexivity|]. split; [reflexivity|].
  split; [reflexivity|].
  destruct (@resolve_force_logout (libs alice) active_client token_text
              alice 100%Z eq_refl eq_refl eq_refl)
    as [result [Hres [Hdecoded _]]].
  exists result. split; [exact Hres|].
  apply (Hdecoded "150" 150%Z); [reflexivity | reflexivity | lia].
Defined.

Lemma resolve_permissions_fallback_witness :
  @ValidateToken (libs alice)
    (client alice (store_of garbled_permissions)) token_text
  = (Some alice, None) /\
  Claims.IssuedAt alice = Some 100%Z /\
  fst (@CheckUserStatus (libs alice)
         (client alice (store_of garbled_permissions)) "u1") = true /\
  unmarshal_map "not json" = inr (lib_error "invalid character") /\
  exists result,
    @ValidateTokenWithDynamicAuth (libs alice)
      (client alice (store_of garbled_permissions)) token_text
    = Returns (Some result, None) /\
    AuthResult.DynamicPermissions result = ["a:b:c"].
Proof.
  split; [reflexivity|]. split; [reflexivity|]. split; [reflexivity|].
  split; [reflexivity|].
  destruct (@resolve_permissions_fallback (libs alice)
              (client alice (store_of garbled_permissions)) token_text
              alice 100%Z eq_refl eq_refl eq_refl)
    as [result [Hres [_ [Hundecodable _]]]].
  exists result. split; [exact Hres|].
  apply (Hundecodable "not json" (lib_error "invalid character"));
    reflexivity.
Defined.

Lemma GetUserDynamicPermissions_decoded_array_witness :
  store_of stored_permissions (dynamic_permissions_key "u1")
  = (permissions_json, None) /\
  unmarshal_map permissions_json
  = inl {[ "permissions" := JArray permissions_data ]} /\
  exists permissions,
    @GetUserDynamicPermissions (libs alice)
      (client alice (store_of stored_permissions)) "u1" = (permissions, None) /\
    length permissions = 3 /\
    permissions !! 1 = Some EmptyString.
Proof.
  split; [reflexivity|]. split; [reflexivity|].
  destruct (@GetUserDynamicPermissions_decoded_array (libs alice)
              (client alice (store_of stored_permissions)) "u1"
              permissions_json {[ "permissions" := JArray permissions_data ]}
              permissions_data eq_refl eq_refl eq_refl)
    as [permissions [Hres [Hlen [_ Hother]]]].
  exists permissions. split; [exact Hres|]. split; [exact Hlen|].
  apply (Hother 1 (JNumber "7")); [reflexivity | discriminate].
Defined.

Lemma ValidateToken_rejects_other_issuer_witness :
  parse_one mallory (strings.TrimPrefix token_text "Bearer ")
    (@keyfunc (libs mallory) (client mallory (store_of ∅)))
  = inl (jwt.mkToken jwt.SigningMethodRSA "RS256" (jwt.ClaimsPtr mallory) true) /\
  Claims.Issuer mallory <> Config.Issuer config /\
  @ValidateToken (libs mallory) (client mallory (store_of ∅)) token_text
  = (None, Some (fmt_Errorf "invalid token issuer")).
Proof.
  split; [reflexivity|]. split; [discriminate|].
  apply (@ValidateToken_rejects_other_issuer (libs mallory)
           (client mallory (store_of ∅)) token_text
           (jwt.mkToken jwt.SigningMethodRSA "RS256" (jwt.ClaimsPtr mallory) true)
           mallory eq_refl eq_refl).
  - discriminate.
  - reflexivity.
Defined.

Lemma ValidateToken_strips_one_Bearer_witness :
  strings.HasPrefix token_text "Bearer " = false /\
  @ValidateToken (libs alice) (client alice (store_of ∅))
    ("Bearer " +:+ token_text)
  = @ValidateToken (libs alice) (client alice (store_of ∅)) token_text.
Proof.
  split; [reflexivity|].
  apply (@ValidateToken_strips_one_Bearer (libs alice)
           (client alice (store_of ∅)) token_text).
  reflexivity.
Defined.

(** The verifier strips one prefix only: on a string that begins with
    ["Bearer "] twice it parses a text that still begins with it. *)
Lemma ValidateToken_Bearer_twice :
  @ValidateToken (libs alice) (client alice (store_of ∅))
    ("Bearer " +:+ ("Bearer " +:+ token_text))
  = (None, Some (fmt_Errorf_w "failed to parse token"
                   (lib_error "token is malformed"))) /\
  @ValidateToken (libs alice) (client alice (store_of ∅))
    ("Bearer " +:+ token_text)
  = (Some alice, None).
Proof. split; vm_compute; reflexivity. Qed.

(** An inactive account with a marker later than the token: no forced
    logout is reported. *)
Lemma resolve_inactive_marker_later :
  store_of inactive_marker_150 (force_logout_key "u1") = ("150", None) /\
  strconv.ParseInt "150" = (150%Z, None) /\
  Claims.IssuedAt alice = Some 100%Z /\
  (100 <? 150)%Z = true /\
  @ValidateTokenWithDynamicAuth (libs alice)
    (client alice (store_of inactive_marker_150)) token_text
  = Returns (Some (AuthResult.mk alice [] false false), None).
Proof. repeat split; vm_compute; reflexivity. Qed.

(** The permissions of the token are not carried over on an inactive
    account with an undecodable entry, nor on an active account without
    an entry. *)
Lemma resolve_permissions_not_carried :
  Claims.Permissions alice = ["a:b:c"] /\
  (store_of inactive_garbled_permissions (dynamic_permissions_key "u1")
   = ("not json", None) /\
   unmarshal_map "not json" = inr (lib_error "invalid character") /\
   @ValidateTokenWithDynamicAuth (libs alice)
     (client alice (store_of inactive_garbled_permissions)) token_text
   = Returns (Some (AuthResult.mk alice [] false false), None)) /\
  (store_of marker_150 (dynamic_permissions_key "u1")
   = (EmptyString, Some redis_Nil) /\
   @ValidateTokenWithDynamicAuth (libs alice)
     (client alice (store_of marker_150)) token_text
   = Returns (Some (AuthResult.mk alice [] true true), None)).
Proof. repeat split; vm_compute; reflexivity. Qed.

End OnFixture.

(** ** The token without an issued-at claim *)

Module OnUndated.

Import Fixture.

(** C6: on a verified token without an issued-at claim, with the
    account-status key absent from the store, the resolution returns no
    result with [IsActive] true: after the status has resolved to its
    default it panics at [claims.IssuedAt.Unix()]. The same token with the
    claim gets the result, [IsActive] true. *)
Theorem resolve_undated_status_absent :
  @ValidateToken (libs undated) (client undated (store_of ∅)) token_text
  = (Some undated, None) /\
  Claims.IssuedAt undated = None /\
  store_of ∅ (status_key (Claims.UserID undated))
  = (EmptyString, Some redis_Nil) /\
  @CheckUserStatus (libs undated) (client undated (store_of ∅))
    (Claims.UserID undated) = (true, None) /\
  @ValidateTokenWithDynamicAuth (libs undated)
    (client undated (store_of ∅)) token_text
  = Panics "nil pointer dereference" /\
  @ValidateTokenWithDynamicAuth (libs alice)
    (client alice (store_of ∅)) token_text
  = Returns (Some (AuthResult.mk alice [] true false), None).
Proof. repeat split; vm_compute; reflexivity. Qed.

(** C3: on a verified token without an issued-at claim, with a store whose
    every read fails, the failures are not absorbed into a result: no
    error is returned, and no result either, the resolution panics at
    [claims.IssuedAt.Unix()]. The same token with the claim gets the three
    defaults. *)
Theorem resolve_undated_store_down :
  @ValidateToken (libs undated) (client undated store_down) token_text
  = (Some undated, None) /\
  Claims.IssuedAt undated = None /\
  store_down (status_key (Claims.UserID undated))
  = (EmptyString, Some (lib_error "dial tcp: connection refused")) /\
  store_down (force_logout_key (Claims.UserID undated))
  = (EmptyString, Some (lib_error "dial tcp: connection refused")) /\
  store_down (dynamic_permissions_key (Claims.UserID undated))
  = (EmptyString, Some (lib_error "dial tcp: connection refused")) /\
  @ValidateTokenWithDynamicAuth (libs undated)
    (client undated store_down) token_text
  = Panics "nil pointer dereference" /\
  @ValidateTokenWithDynamicAuth (libs alice)
    (client alice store_down) token_text
  = Returns (Some (AuthResult.mk alice ["a:b:c"] true false), None).
Proof. repeat split; vm_compute; reflexivity. Qed.

End OnUndated.


(** ** More on the matcher *)

Section MatcherLaws.

Implicit Types (held : list string) (perm required : string).

(** X1: a held list that contains another grants whatever the smaller one
    grants: no held permission takes access away, and neither the order
    nor the repetitions of the held list matter. *)
Theorem checkPermission_monotone held held' required :
  (forall perm, In perm held -> In perm held') ->
  checkPermission held required = true ->
  checkPermission held' required = true.
Proof.
  intros Hincl Hc. apply checkPermission_spec in Hc.
  destruct Hc as [perm [Hin Hg]].
  apply checkPermission_spec. exists perm. split; [now apply Hincl | exact Hg].
Qed.

Lemma checkPermission_monotone_witness :
  (forall perm, In perm ["cdn:*:*"] -> In perm ["dns:zones:read"; "cdn:*:*"]) /\
  checkPermission ["cdn:*:*"] "cdn:zones:write" = true /\
  checkPermission ["dns:zones:read"; "cdn:*:*"] "cdn:zones:write" = true.
Proof.
  assert (Hincl : forall perm, In perm ["cdn:*:*"] ->
                               In perm ["dns:zones:read"; "cdn:*:*"]).
  { intros perm [<-|[]]. right. now left. }
  split; [exact Hincl|]. split; [reflexivity|].
  apply (checkPermission_monotone ["cdn:*:*"] ["dns:zones:read"; "cdn:*:*"]
           "cdn:zones:write" Hincl).
  reflexivity.
Defined.

(** X2: when no held permission contains ["*"], [checkPermission] is plain
    membership: a ["*"] in the required permission has no meaning of its
    own. *)
Theorem checkPermission_without_wildcard held required :
  (forall perm, In perm held -> strings.Contains perm "*" = false) ->
  (checkPermission held required = true <-> In required held).
Proof.
  intros Hnw. rewrite checkPermission_spec. split.
  - intros [perm [Hin Hg]]. specialize (Hnw perm Hin).
    destruct Hg as [<-|[[->| ->]|Hm]]; [exact Hin | discriminate.. |].
    apply matchesWildcardPermission_spec in Hm. destruct Hm as [Hc _].
    congruence.
  - intros Hin. exists required. split; [exact Hin | now left].
Qed.

Lemma checkPermission_without_wildcard_witness :
  (forall perm, In perm ["cdn:zones:read"] -> strings.Contains perm "*" = false) /\
  (checkPermission ["cdn:zones:read"] "cdn:*:*" = true <->
   In "cdn:*:*" ["cdn:zones:read"]).
Proof.
  assert (Hnw : forall perm, In perm ["cdn:zones:read"] ->
                             strings.Contains perm "*" = false).
  { intros perm [<-|[]]. reflexivity. }
  split; [exact Hnw|].
  exact (checkPermission_without_wildcard ["cdn:zones:read"] "cdn:*:*" Hnw).
Defined.

(** X3: a held ["*"] or ["*:*:*"] grants every required permission,
    whatever its number of segments, the empty string included. *)
Theorem checkPermission_universal held required :
  In "*" held \/ In "*:*:*" held ->
  checkPermission held required = true.
Proof.
  intros Hu. apply checkPermission_spec.
  destruct Hu as [Hin|Hin]; eexists; (split; [exact Hin|]);
    right; left; [now left | now right].
Qed.

Lemma checkPermission_universal_witness :
  (In "*" ["cdn:zones:read"; "*"] \/ In "*:*:*" ["cdn:zones:read"; "*"]) /\
  checkPermission ["cdn:zones:read"; "*"] "a:b:c:d:e" = true.
Proof.
  assert (Hu : In "*" ["cdn:zones:read"; "*"] \/
               In "*:*:*" ["cdn:zones:read"; "*"]).
  { left. right. now left. }
  split; [exact Hu|].
  exact (checkPermission_universal ["cdn:zones:read"; "*"] "a:b:c:d:e" Hu).
Defined.

(** Splitting on [":"] gives one segment more than there are colons. *)
Lemma split_from_colon_length (s : string) :
  forall cur, length (strings.split_from ":" s 0 cur) = S (count_byte ":" s).
Proof.
  induction s as [|ch s' IH]; intros cur; [reflexivity|].
  cbn [strings.split_from count_byte].
  unfold strings.HasPrefix. cbn [String.prefix].
  destruct (Ascii.eqb_spec ch ":") as [->|Hne].
  - destruct (ascii_dec ":" ":") as [_|Hc]; [|contradiction].
    assert (Hp : String.prefix EmptyString s' = true) by now destruct s'.
    rewrite Hp. cbn [length String.length Nat.sub]. now rewrite IH.
  - destruct (ascii_dec ":" ch) as [Heq|_]; [now subst|].
    now rewrite IH.
Qed.

Lemma Split_colon_length (s : string) :
  length (strings.Split s ":") = S (count_byte ":" s).
Proof. apply split_from_colon_length. Qed.

(** X4: a wildcard match needs a held permission that contains ["*"] and
    has exactly as many colons as the required one. *)
Theorem matchesWildcardPermission_same_colons perm required :
  matchesWildcardPermission perm required = true ->
  strings.Contains perm "*" = true /\
  count_byte ":" perm = count_byte ":" required.
Proof.
  intros Hm. apply matchesWildcardPermission_spec in Hm.
  destruct Hm as [Hc [Hlen _]]. split; [exact Hc|].
  rewrite !Split_colon_length in Hlen. congruence.
Qed.

Lemma matchesWildcardPermission_same_colons_witness :
  matchesWildcardPermission "cdn:zones:*" "cdn:zones:write" = true /\
  strings.Contains "cdn:zones:*" "*" = true /\
  count_byte ":" "cdn:zones:*" = count_byte ":" "cdn:zones:write".
Proof.
  split; [reflexivity|].
  apply (matchesWildcardPermission_same_colons "cdn:zones:*" "cdn:zones:write").
  reflexivity.
Defined.

(** X5: a held permission that contains ["*"] and whose segments are, place
    by place, the wildcard or the segment of the required permission,
    grants it. *)
Theorem checkPermission_wildcard_grants held perm required :
  In perm held ->
  strings.Contains perm "*" = true ->
  Forall2 segment_grants
    (strings.Split perm ":") (strings.Split required ":") ->
  checkPermission held required = true.
Proof.
  intros Hin Hc HF. apply checkPermission_spec. exists perm.
  split; [exact Hin|]. right. right.
  apply matchesWildcardPermission_spec.
  split; [exact Hc|]. split; [|exact HF].
  clear -HF. induction HF; cbn [length]; congruence.
Qed.

Lemma checkPermission_wildcard_grants_witness :
  In "cdn:*:write" ["cdn:*:write"] /\
  strings.Contains "cdn:*:write" "*" = true /\
  Forall2 segment_grants
    (strings.Split "cdn:*:write" ":") (strings.Split "cdn:zones:write" ":") /\
  checkPermission ["cdn:*:write"] "cdn:zones:write" = true.
Proof.
  assert (HF : Forall2 segment_grants
                 (strings.Split "cdn:*:write" ":")
                 (strings.Split "cdn:zones:write" ":")).
  { change (Forall2 segment_grants
              ["cdn"; "*"; "write"] ["cdn"; "zones"; "write"]).
    constructor; [now right|]. constructor; [now left|].
    constructor; [now right|]. constructor. }
  split; [now left|]. split; [reflexivity|]. split; [exact HF|].
  apply (checkPermission_wildcard_grants ["cdn:*:write"] "cdn:*:write"
           "cdn:zones:write"); [now left | reflexivity | exact HF].
Defined.

(** X6: [RequirePermission] and [RequireAnyPermission] let a request pass
    only when the context holds a string slice under ["permissions"] that
    grants the permission (one of the permissions); every refusal is a 403. *)
Theorem permission_handlers_pass_iff (c : gmap string CtxValue) :
  (forall permission,
      (RequirePermission permission c = Next <->
       exists userPermissions,
         c !! "permissions" = Some (CtxStrings userPermissions) /\
         checkPermission userPermissions permission = true) /\
      (forall status message,
          RequirePermission permission c = Abort status message ->
          status = 403%Z)) /\
  (forall permissions,
      (RequireAnyPermission permissions c = Next <->
       exists userPerms,
         c !! "permissions" = Some (CtxStrings userPerms) /\
         hasAnyPermission userPerms permissions = true) /\
      (forall status message,
          RequireAnyPermission permissions c = Abort status message ->
          status = 403%Z)).
Proof.
  split; intros p; unfold RequirePermission, RequireAnyPermission;
    destruct (c !! "permissions") as [[s|l]|] eqn:E.
  all: try (split; [split; [discriminate | intros [? [[=] _]]]
                   | intros ? ? [= <- _]; reflexivity]).
  - destruct (checkPermission l p) eqn:Hc; cbn [negb]; split.
    + split; [eauto | reflexivity].
    + discriminate.
    + split; [discriminate | intros [? [[= <-] ?]]; congruence].
    + intros ? ? [= <- _]. reflexivity.
  - destruct (hasAnyPermission l p) eqn:Hc; cbn [negb]; split.
    + split; [eauto | reflexivity].
    + discriminate.
    + split; [discriminate | intros [? [[= <-] ?]]; congruence].
    + intros ? ? [= <- _]. reflexivity.
Qed.

(** X7: [RequireAnyPermission] passes exactly when [RequirePermission]
    passes for one of its permissions; with no permission at all it refuses
    every request. *)
Theorem RequireAnyPermission_some_RequirePermission
    (permissions : list string) (c : gmap string CtxValue) :
  (RequireAnyPermission permissions c = Next <->
   exists permission,
     In permission permissions /\ RequirePermission permission c = Next) /\
  (permissions = [] ->
   exists message, RequireAnyPermission permissions c = Abort 403 message).
Proof.
  split.
  - unfold RequireAnyPermission, RequirePermission.
    destruct (c !! "permissions") as [[s|l]|];
      try (split; [discriminate | intros [? [_ [=]]]]).
    destruct (hasAnyPermission l permissions) eqn:Hany; cbn [negb].
    + apply hasAnyPermission_spec in Hany. destruct Hany as [p [Hin Hp]].
      split; [|reflexivity]. intros _. exists p. split; [exact Hin|].
      now rewrite Hp.
    + split; [discriminate|]. intros [p [Hin Hp]].
      destruct (checkPermission l p) eqn:Hc; cbn [negb] in Hp; [|discriminate].
      assert (hasAnyPermission l permissions = true)
        by (apply hasAnyPermission_spec; eauto).
      congruence.
  - intros ->. unfold RequireAnyPermission.
    destruct (c !! "permissions") as [[s|l]|]; cbn; eauto.
Qed.

End MatcherLaws.

(** ** The handlers *)

Section PrefixLemmas.

Lemma length_append (s1 s2 : string) :
  String.length (s1 +:+ s2) = String.length s1 + String.length s2.
Proof. induction s1 as [|a s1 IH]; simpl; [reflexivity | now rewrite IH]. Qed.

Lemma prefix_decompose (p s : string) :
  String.prefix p s = true -> s = p +:+ strings.drop (String.length p) s.
Proof.
  revert s. induction p as [|a p IH]; intros s Hp; [reflexivity|].
  destruct s as [|b s]; simpl in Hp; [discriminate|].
  destruct (ascii_dec a b) as [->|]; [|discriminate].
  cbn [String.length strings.drop].
  change (String b p +:+ ?x) with (String b (p +:+ x)).
  f_equal. now apply IH.
Qed.

(** [TrimPrefix] changes a string exactly when the string begins with the
    (non-empty) prefix. *)
Lemma TrimPrefix_changed_iff (s p : string) :
  p <> EmptyString ->
  (strings.TrimPrefix s p <> s <-> exists rest, s = p +:+ rest).
Proof.
  intros Hne. unfold strings.TrimPrefix, strings.HasPrefix.
  destruct (String.prefix p s) eqn:Hp.
  - split.
    + intros _. eexists. now apply prefix_decompose.
    + intros _ Heq. apply prefix_decompose in Hp.
      rewrite Heq in Hp. apply (f_equal String.length) in Hp.
      rewrite length_append in Hp. destruct p; [contradiction|].
      simpl in Hp. lia.
  - split; [intros Hc; now destruct Hc|].
    intros [rest ->]. rewrite prefix_prepended in Hp. discriminate.
Qed.

Lemma append_empty_r (s : string) : s +:+ EmptyString = s.
Proof.
  induction s as [|a s IH]; [reflexivity|].
  change (String a (s +:+ EmptyString) = String a s). now rewrite IH.
Qed.

Lemma substring_full (s : string) :
  String.substring 0 (String.length s) s = s.
Proof. induction s as [|a s IH]; simpl; [reflexivity | now rewrite IH]. Qed.

Lemma drop_all (s : string) : strings.drop (String.length s) s = EmptyString.
Proof. induction s; simpl; auto. Qed.

Lemma Bearer_header_cases (h : string) :
  (exists tokenString,
      h = "Bearer " +:+ tokenString /\
      String.eqb h EmptyString = false /\
      strings.TrimPrefix h "Bearer " = tokenString /\
      String.eqb (strings.TrimPrefix h "Bearer ") h = false) \/
  (strings.HasPrefix h "Bearer " = false /\
   (String.eqb h EmptyString = true \/
    String.eqb (strings.TrimPrefix h "Bearer ") h = true)).
Proof.
  destruct (strings.HasPrefix h "Bearer ") eqn:Hp.
  - left. pose proof (prefix_decompose _ _ Hp) as Hd.
    exists (strings.drop (String.length "Bearer ") h).
    split; [exact Hd|]. split.
    + rewrite Hd. reflexivity.
    + split.
      * unfold strings.TrimPrefix. now rewrite Hp.
      * apply String.eqb_neq. apply TrimPrefix_changed_iff; [discriminate|].
        eauto.
  - right. split; [reflexivity|]. right.
    unfold strings.TrimPrefix. rewrite Hp. apply String.eqb_refl.
Qed.

Lemma substring_prefix (s : string) :
  forall n, n <= String.length s ->
    String.length (String.substring 0 n s) = n /\
    String.prefix (String.substring 0 n s) s = true.
Proof.
  induction s as [|a s IH]; intros [|n] Hn; simpl in *; try lia; auto.
  destruct (IH n ltac:(lia)) as [Hl Hp]. split; [now rewrite Hl|].
  destruct (ascii_dec a a); [exact Hp | contradiction].
Qed.

End PrefixLemmas.

Section HandlerLaws.

Implicit Types (authClient : AuthClient) (c : gin.Context).

(** X8: the token prefix that [Authenticate] logs is always defined (the
    slice never goes out of range) and is a prefix of the token of at most
    20 bytes, the whole token when it is that short. *)
Theorem token_prefix_in_range (tokenString : string) :
  exists prefix,
    token_prefix tokenString = Some prefix /\
    String.length prefix <= 20 /\
    strings.HasPrefix tokenString prefix = true /\
    (String.length tokenString <= 20 -> prefix = tokenString).
Proof.
  unfold token_prefix, slice_to, min.
  set (len := String.length tokenString).
  destruct (Z.ltb_spec (Z.of_nat len) 20) as [Hlt|Hge].
  - assert (Hr : (0 <=? Z.of_nat len)%Z && (Z.of_nat len <=? Z.of_nat len)%Z = true).
    { apply andb_true_intro. split; apply Z.leb_le; lia. }
    rewrite Hr, Nat2Z.id. eexists. split; [reflexivity|].
    unfold len. rewrite substring_full. fold len.
    split; [lia|]. split; [|reflexivity].
    unfold strings.HasPrefix.
    rewrite <- (append_empty_r tokenString) at 2. apply prefix_prepended.
  - assert (Hr : (0 <=? 20)%Z && (20 <=? Z.of_nat len)%Z = true).
    { apply andb_true_intro. split; apply Z.leb_le; lia. }
    rewrite Hr. eexists. split; [reflexivity|].
    assert (H20 : Z.to_nat 20 <= String.length tokenString) by (fold len; lia).
    destruct (substring_prefix tokenString (Z.to_nat 20) H20) as [Hl Hp].
    split; [rewrite Hl; lia|]. split; [exact Hp|]. intros Hle.
    fold len in Hle. replace (Z.to_nat 20) with (String.length tokenString)
      by (fold len; lia).
    apply substring_full.
Qed.

Lemma token_prefix_defined (tokenString : string) :
  exists prefix, token_prefix tokenString = Some prefix.
Proof.
  unfold token_prefix, slice_to, min.
  destruct (Z.ltb_spec (Z.of_nat (String.length tokenString)) 20) as [Hlt|Hge].
  - rewrite (proj2 (Z.leb_le 0 _)) by lia.
    rewrite (proj2 (Z.leb_le _ _)) by lia. cbn. eauto.
  - rewrite (proj2 (Z.leb_le 20 _)) by lia. cbn. eauto.
Qed.

Lemma Bearer_header_inv (h tokenString : string) :
  h = "Bearer " +:+ tokenString ->
  String.eqb h EmptyString = false /\
  strings.TrimPrefix h "Bearer " = tokenString /\
  String.eqb (strings.TrimPrefix h "Bearer ") h = false.
Proof.
  intros Hh.
  destruct (Bearer_header_cases h) as [[tok [Hh' [He [Ht Hn]]]]|[Hp _]].
  - repeat split; try assumption.
    rewrite Hh. apply TrimPrefix_prepended.
  - rewrite Hh in Hp. unfold strings.HasPrefix in Hp.
    rewrite prefix_prepended in Hp. discriminate.
Qed.

(** What [Authenticate] does once the header is ["Bearer "] and a token. *)
Lemma Authenticate_Bearer authClient c tokenString :
  gin.GetHeader c "Authorization" = "Bearer " +:+ tokenString ->
  Authenticate authClient c
  = match authClient_ValidateTokenWithDynamicAuth authClient tokenString with
    | Panics reason => Panics reason
    | Returns (_, Some err) =>
        Returns (c, respondUnauthorized "Invalid or expired token")
    | Returns (None, None) => Panics "nil pointer dereference"
    | Returns (Some authResult, None) =>
        if negb (AuthResult.IsActive authResult)
        then Returns (c, respondForbidden "User account is disabled")
        else if AuthResult.ShouldForceLogout authResult
        then Returns (c, respondUnauthorized "Please login again")
        else Returns (set_user_context c authResult, Next)
    end.
Proof.
  intros Hh. destruct (Bearer_header_inv _ _ Hh) as [He [Ht Hn]].
  unfold Authenticate. rewrite He, Hn, Ht.
  destruct (authClient_ValidateTokenWithDynamicAuth authClient tokenString)
    as [[r [e|]]|reason]; try reflexivity.
  destruct (token_prefix_defined tokenString) as [p ->]. reflexivity.
Qed.

(** What [Authenticate] does with any other header. *)
Lemma Authenticate_not_Bearer authClient c :
  strings.HasPrefix (gin.GetHeader c "Authorization") "Bearer " = false ->
  Authenticate authClient c
  = Returns (c, respondUnauthorized
                  (if String.eqb (gin.GetHeader c "Authorization") EmptyString
                   then "Missing authorization header"
                   else "Invalid authorization header format")).
Proof.
  intros Hp. unfold Authenticate.
  destruct (String.eqb (gin.GetHeader c "Authorization") EmptyString);
    [reflexivity|].
  unfold strings.TrimPrefix. rewrite Hp, String.eqb_refl. reflexivity.
Qed.

(** The keys [set_user_context] writes. *)
Lemma set_user_context_keys c authResult :
  gin.Keys (set_user_context c authResult) !! "permissions"
  = Some (CtxStrings (AuthResult.DynamicPermissions authResult)) /\
  gin.Keys (set_user_context c authResult) !! "user_id"
  = Some (CtxString (Claims.UserID (AuthResult.Claims authResult))) /\
  gin.Header (set_user_context c authResult) = gin.Header c.
Proof.
  unfold set_user_context, gin.Set'. cbn [gin.Keys gin.Header].
  split; [|split; [|reflexivity]].
  - rewrite lookup_insert_ne by discriminate. apply lookup_insert_eq.
  - do 5 (rewrite lookup_insert_ne by discriminate). apply lookup_insert_eq.
Qed.

(** X10: when [Authenticate] refuses, the context is the request context
    untouched (no user key is set), and the status is 401, or 403 for a
    result of an inactive account and for nothing else. *)
Theorem Authenticate_abort_untouched authClient c c' status message :
  Authenticate authClient c = Returns (c', Abort status message) ->
  c' = c /\
  (status = 401%Z \/
   status = 403%Z /\
   exists tokenString authResult,
     gin.GetHeader c "Authorization" = "Bearer " +:+ tokenString /\
     authClient_ValidateTokenWithDynamicAuth authClient tokenString
     = Returns (Some authResult, None) /\
     AuthResult.IsActive authResult = false).
Proof.
  intros Habort.
  destruct (Bearer_header_cases (gin.GetHeader c "Authorization"))
    as [[tok [Hh _]]|[Hp _]].
  - rewrite (Authenticate_Bearer _ _ _ Hh) in Habort.
    destruct (authClient_ValidateTokenWithDynamicAuth authClient tok)
      as [[[r|] [e|]]|reason] eqn:Hv; try discriminate;
      try (injection Habort as <- <- _; split; [reflexivity | now left]).
    destruct (AuthResult.IsActive r) eqn:Ha; cbn [negb] in Habort.
    + destruct (AuthResult.ShouldForceLogout r); [|discriminate].
      injection Habort as <- <- _. split; [reflexivity | now left].
    + injection Habort as <- <- _. split; [reflexivity|]. right.
      split; [reflexivity|]. exists tok, r. auto.
  - rewrite (Authenticate_not_Bearer _ _ Hp) in Habort.
    injection Habort as <- <- _. split; [reflexivity | now left].
Qed.

(** X11: a header that does not begin with ["Bearer "] (a missing header,
    another scheme, ["bearer "] in lower case) is refused with a 401
    whatever the auth client is. *)
Theorem Authenticate_requires_Bearer authClient c :
  strings.HasPrefix (gin.GetHeader c "Authorization") "Bearer " = false ->
  exists message,
    Authenticate authClient c = Returns (c, Abort 401 message).
Proof.
  intros Hp. rewrite (Authenticate_not_Bearer _ _ Hp). eexists. reflexivity.
Qed.

(** X12: [OptionalAuth] never refuses a request: it passes on the context
    [Authenticate] would pass on when [Authenticate] lets the request
    pass, the request context untouched when [Authenticate] refuses, and
    it panics when [Authenticate] does. *)
Theorem OptionalAuth_follows_Authenticate authClient c :
  OptionalAuth authClient c
  = match Authenticate authClient c with
    | Returns (c', Next) => Returns (c', Next)
    | Returns (_, Abort _ _) => Returns (c, Next)
    | Panics reason => Panics reason
    end.
Proof.
  destruct (Bearer_header_cases (gin.GetHeader c "Authorization"))
    as [[tok [Hh [He [Ht Hn]]]]|[Hp Hcase]].
  - rewrite (Authenticate_Bearer _ _ _ Hh).
    unfold OptionalAuth. rewrite He, Hn, Ht.
    destruct (authClient_ValidateTokenWithDynamicAuth authClient tok)
      as [[[r|] [e|]]|reason]; try reflexivity.
    destruct (AuthResult.IsActive r), (AuthResult.ShouldForceLogout r);
      reflexivity.
  - rewrite (Authenticate_not_Bearer _ _ Hp). unfold OptionalAuth.
    destruct (String.eqb (gin.GetHeader c "Authorization") EmptyString);
      [reflexivity|].
    unfold strings.TrimPrefix. rewrite Hp, String.eqb_refl. reflexivity.
Qed.

End HandlerLaws.

Section HandlerWitnesses.

Import Requests.

Lemma Authenticate_abort_untouched_witness :
  Authenticate (always disabled_alice) (authorized "Bearer anything")
  = Returns (authorized "Bearer anything",
             Abort 403 "User account is disabled") /\
  (403%Z = 401%Z \/
   403%Z = 403%Z /\
   exists tokenString authResult,
     gin.GetHeader (authorized "Bearer anything") "Authorization"
     = "Bearer " +:+ tokenString /\
     authClient_ValidateTokenWithDynamicAuth (always disabled_alice) tokenString
     = Returns (Some authResult, None) /\
     AuthResult.IsActive authResult = false).
Proof.
  split; [reflexivity|].
  apply (Authenticate_abort_untouched (always disabled_alice)
           (authorized "Bearer anything") (authorized "Bearer anything")
           403%Z "User account is disabled" eq_refl).
Defined.

Lemma Authenticate_requires_Bearer_witness :
  strings.HasPrefix
    (gin.GetHeader (authorized "bearer header.payload.signature") "Authorization")
    "Bearer " = false /\
  exists message,
    Authenticate (always disabled_alice)
      (authorized "bearer header.payload.signature")
    = Returns (authorized "bearer header.payload.signature", Abort 401 message).
Proof.
  split; [reflexivity|].
  apply (Authenticate_requires_Bearer (always disabled_alice)
           (authorized "bearer header.payload.signature")).
  reflexivity.
Defined.

End HandlerWitnesses.

(** ** The handlers over the client *)

Section HandlersOverClient.

Context `{Externals}.

Implicit Types (cl : Client.t) (c : gin.Context) (claims : Claims.t).

Lemma ValidateToken_Bearer_prefixed cl (t : string) :
  strings.HasPrefix t "Bearer " = false ->
  ValidateToken cl ("Bearer " +:+ t) = ValidateToken cl t.
Proof.
  intros Hnp. unfold ValidateToken.
  rewrite TrimPrefix_prepended, (TrimPrefix_without _ _ Hnp). reflexivity.
Qed.

(** X14: the scheme word may be doubled: for a token that does not itself
    begin with ["Bearer "], [Authenticate] decides on the header
    ["Bearer Bearer "] and the token as it does on ["Bearer "] and the
    token, since the middleware and [ValidateToken] each strip one
    prefix. *)
Theorem Authenticate_double_Bearer cl c (t : string) :
  strings.HasPrefix t "Bearer " = false ->
  verdict (Authenticate (Client_AuthClient cl)
             (with_Authorization c ("Bearer " +:+ ("Bearer " +:+ t))))
  = verdict (Authenticate (Client_AuthClient cl)
               (with_Authorization c ("Bearer " +:+ t))).
Proof.
  intros Hnp.
  rewrite (Authenticate_Bearer _ _ ("Bearer " +:+ t)) by reflexivity.
  rewrite (Authenticate_Bearer _ _ t) by reflexivity.
  cbn [Client_AuthClient authClient_ValidateTokenWithDynamicAuth].
  assert (Hsame : ValidateTokenWithDynamicAuth cl ("Bearer " +:+ t)
                  = ValidateTokenWithDynamicAuth cl t).
  { unfold ValidateTokenWithDynamicAuth.
    now rewrite (ValidateToken_Bearer_prefixed cl t Hnp). }
  rewrite Hsame.
  destruct (ValidateTokenWithDynamicAuth cl t) as [[[r|] [e|]]|reason];
    try reflexivity.
  destruct (AuthResult.IsActive r), (AuthResult.ShouldForceLogout r);
    reflexivity.
Qed.

(** X15: a store that cannot be read never locks a verified token out:
    when every read fails, [Authenticate] passes the request of a verified
    token carrying an issued-at claim, with the permissions of the
    token. *)
Theorem Authenticate_store_unreadable cl c tokenString claims issuedAt :
  gin.GetHeader c "Authorization" = "Bearer " +:+ tokenString ->
  ValidateToken cl tokenString = (Some claims, None) ->
  Claims.IssuedAt claims = Some issuedAt ->
  (forall key, store_fails cl key) ->
  Authenticate (Client_AuthClient cl) c
  = Returns
      (set_user_context c
         (AuthResult.mk claims (Claims.Permissions claims) true false),
       Next).
Proof.
  intros Hh Hv Hiat Hdown.
  rewrite (Authenticate_Bearer _ _ _ Hh).
  cbn [Client_AuthClient authClient_ValidateTokenWithDynamicAuth].
  destruct (CheckUserStatus_fails cl _ (Hdown (status_key (Claims.UserID claims))))
    as [e0 Hs].
  rewrite (resolve_active cl _ _ _ Hv Hiat) by now rewrite Hs.
  destruct (CheckForceLogout_fails cl _ issuedAt
              (Hdown (force_logout_key (Claims.UserID claims)))) as [e1 ->].
  destruct (GetUserDynamicPermissions_fails cl _
              (Hdown (dynamic_permissions_key (Claims.UserID claims))))
    as [e2 ->].
  reflexivity.
Qed.

(** X16: an account stored as inactive is refused with 403 whatever the
    store holds for the forced logout and the permissions: the disabled
    answer comes before the login-again answer. *)
Theorem Authenticate_inactive_forbidden cl c tokenString claims val status :
  gin.GetHeader c "Authorization" = "Bearer " +:+ tokenString ->
  ValidateToken cl tokenString = (Some claims, None) ->
  store_holds cl (status_key (Claims.UserID claims)) val ->
  json_Unmarshal_UserStatus val = inl status ->
  UserStatus.IsActive status = false ->
  Authenticate (Client_AuthClient cl) c
  = Returns (c, Abort 403 "User account is disabled").
Proof.
  intros Hh Hv Hs Hd Hina.
  rewrite (Authenticate_Bearer _ _ _ Hh).
  cbn [Client_AuthClient authClient_ValidateTokenWithDynamicAuth].
  rewrite (resolve_inactive cl _ _ Hv).
  - reflexivity.
  - rewrite (CheckUserStatus_decoded _ _ _ _ Hs Hd). now rewrite Hina.
Qed.

(** X17: on an active account with no forced logout and no
    dynamic-permission key in the store, [Authenticate] passes the request
    with an empty permission list, and [RequirePermission] then refuses
    every permission with 403, whatever permissions the token embeds. *)
Theorem absent_permissions_refuse_all cl c tokenString claims issuedAt :
  gin.GetHeader c "Authorization" = "Bearer " +:+ tokenString ->
  ValidateToken cl tokenString = (Some claims, None) ->
  Claims.IssuedAt claims = Some issuedAt ->
  fst (CheckUserStatus cl (Claims.UserID claims)) = true ->
  fst (CheckForceLogout cl (Claims.UserID claims) issuedAt) = false ->
  store_absent cl (dynamic_permissions_key (Claims.UserID claims)) ->
  Authenticate (Client_AuthClient cl) c
  = Returns (set_user_context c (AuthResult.mk claims [] true false), Next) /\
  forall permission,
    gin.run [Authenticate (Client_AuthClient cl);
             RequirePermission_handler permission] c
    = Returns
        (set_user_context c (AuthResult.mk claims [] true false),
         Abort 403
           ("Insufficient permissions: required '" +:+ permission +:+ "'")).
Proof.
  intros Hh Hv Hiat Hact Hnf Habs.
  assert (Hauth : Authenticate (Client_AuthClient cl) c
                  = Returns (set_user_context c
                               (AuthResult.mk claims [] true false), Next)).
  { rewrite (Authenticate_Bearer _ _ _ Hh).
    cbn [Client_AuthClient authClient_ValidateTokenWithDynamicAuth].
    rewrite (resolve_active cl _ _ _ Hv Hiat Hact).
    rewrite (GetUserDynamicPermissions_absent _ _ Habs).
    destruct (CheckForceLogout cl (Claims.UserID claims) issuedAt) as [b e].
    cbn [fst] in Hnf. subst b. destruct e; reflexivity. }
  split; [exact Hauth|]. intros permission.
  cbn [gin.run]. rewrite Hauth.
  unfold RequirePermission_handler, RequirePermission.
  rewrite (proj1 (set_user_context_keys c _)). reflexivity.
Qed.

(** X9: over the client, [Authenticate] lets a request pass exactly when
    the header is ["Bearer "] followed by a token that
    [ValidateTokenWithDynamicAuth] resolves, without error, to a result of
    an active account with no forced logout; the context it passes on is
    the request context with the user keys set from that result. *)
Theorem Authenticate_pass_iff cl c c' :
  Authenticate (Client_AuthClient cl) c = Returns (c', Next) <->
  exists tokenString authResult,
    gin.GetHeader c "Authorization" = "Bearer " +:+ tokenString /\
    ValidateTokenWithDynamicAuth cl tokenString
    = Returns (Some authResult, None) /\
    AuthResult.IsActive authResult = true /\
    AuthResult.ShouldForceLogout authResult = false /\
    c' = set_user_context c authResult.
Proof.
  split.
  - intros Hpass.
    destruct (Bearer_header_cases (gin.GetHeader c "Authorization"))
      as [[tok [Hh _]]|[Hp _]].
    + rewrite (Authenticate_Bearer _ _ _ Hh) in Hpass.
      cbn [Client_AuthClient authClient_ValidateTokenWithDynamicAuth] in Hpass.
      destruct (ValidateTokenWithDynamicAuth cl tok)
        as [[[r|] [e|]]|reason] eqn:Hv; try discriminate.
      destruct (AuthResult.IsActive r) eqn:Ha; cbn [negb] in Hpass;
        [|discriminate].
      destruct (AuthResult.ShouldForceLogout r) eqn:Hf; [discriminate|].
      injection Hpass as <-. exists tok, r. auto.
    + rewrite (Authenticate_not_Bearer _ _ Hp) in Hpass. discriminate.
  - intros [tok [r [Hh [Hv [Ha [Hf ->]]]]]].
    rewrite (Authenticate_Bearer _ _ _ Hh).
    cbn [Client_AuthClient authClient_ValidateTokenWithDynamicAuth].
    rewrite Hv, Ha, Hf. reflexivity.
Qed.

(** X13: over the client, [Authenticate] followed by [RequirePermission]:
    the request passes exactly when [Authenticate] passes it and the
    permissions of the result grant the permission; a ["permissions"] key
    already in the request context plays no part. *)
Theorem Authenticate_then_RequirePermission cl c permission c' :
  gin.run [Authenticate (Client_AuthClient cl);
           RequirePermission_handler permission] c
  = Returns (c', Next) <->
  exists tokenString authResult,
    gin.GetHeader c "Authorization" = "Bearer " +:+ tokenString /\
    ValidateTokenWithDynamicAuth cl tokenString
    = Returns (Some authResult, None) /\
    AuthResult.IsActive authResult = true /\
    AuthResult.ShouldForceLogout authResult = false /\
    checkPermission (AuthResult.DynamicPermissions authResult) permission
    = true /\
    c' = set_user_context c authResult.
Proof.
  cbn [gin.run]. unfold RequirePermission_handler, RequirePermission. split.
  - intros Hrun.
    destruct (Bearer_header_cases (gin.GetHeader c "Authorization"))
      as [[tok [Hh _]]|[Hp _]].
    + rewrite (Authenticate_Bearer _ _ _ Hh) in Hrun.
      cbn [Client_AuthClient authClient_ValidateTokenWithDynamicAuth] in Hrun.
      destruct (ValidateTokenWithDynamicAuth cl tok)
        as [[[r|] [e|]]|reason] eqn:Hv; try discriminate.
      destruct (AuthResult.IsActive r) eqn:Ha; cbn [negb] in Hrun;
        [|discriminate].
      destruct (AuthResult.ShouldForceLogout r) eqn:Hf; [discriminate|].
      rewrite (proj1 (set_user_context_keys c r)) in Hrun.
      destruct (checkPermission (AuthResult.DynamicPermissions r) permission)
        eqn:Hc; cbn [negb] in Hrun; [|discriminate].
      injection Hrun as <-. exists tok, r. auto 10.
    + rewrite (Authenticate_not_Bearer _ _ Hp) in Hrun. discriminate.
  - intros [tok [r [Hh [Hv [Ha [Hf [Hc ->]]]]]]].
    rewrite (Authenticate_Bearer _ _ _ Hh).
    cbn [Client_AuthClient authClient_ValidateTokenWithDynamicAuth].
    rewrite Hv, Ha, Hf. cbn [negb].
    rewrite (proj1 (set_user_context_keys c r)), Hc. reflexivity.
Qed.

End HandlersOverClient.

Module OnRequests.

Import Fixture Requests.

Lemma Authenticate_double_Bearer_witness :
  strings.HasPrefix token_text "Bearer " = false /\
  verdict (Authenticate
             (@Client_AuthClient (libs alice) (client alice (store_of ∅)))
             (with_Authorization bare ("Bearer " +:+ ("Bearer " +:+ token_text))))
  = verdict (Authenticate
               (@Client_AuthClient (libs alice) (client alice (store_of ∅)))
               (with_Authorization bare ("Bearer " +:+ token_text))).
Proof.
  split; [reflexivity|].
  apply (@Authenticate_double_Bearer (libs alice) (client alice (store_of ∅))
           bare token_text).
  reflexivity.
Defined.

Lemma Authenticate_store_unreadable_witness :
  gin.GetHeader (authorized ("Bearer " +:+ token_text)) "Authorization"
  = "Bearer " +:+ token_text /\
  @ValidateToken (libs alice) down_client token_text = (Some alice, None) /\
  Claims.IssuedAt alice = Some 100%Z /\
  (forall key, @store_fails (libs alice) down_client key) /\
  @Authenticate (@Client_AuthClient (libs alice) down_client)
    (authorized ("Bearer " +:+ token_text))
  = Returns
      (set_user_context (authorized ("Bearer " +:+ token_text))
         (AuthResult.mk alice ["a:b:c"] true false),
       Next).
Proof.
  assert (Hdown : forall key, @store_fails (libs alice) down_client key).
  { intros key. exists EmptyString, (lib_error "dial tcp: connection refused").
    split; [reflexivity | discriminate]. }
  split; [reflexivity|]. split; [reflexivity|]. split; [reflexivity|].
  split; [exact Hdown|].
  apply (@Authenticate_store_unreadable (libs alice) down_client
           (authorized ("Bearer " +:+ token_text)) token_text alice 100%Z
           eq_refl eq_refl eq_refl Hdown).
Defined.

Lemma Authenticate_inactive_forbidden_witness :
  gin.GetHeader (authorized ("Bearer " +:+ token_text)) "Authorization"
  = "Bearer " +:+ token_text /\
  @ValidateToken (libs alice) (client alice (store_of inactive_marker_150))
    token_text = (Some alice, None) /\
  store_of inactive_marker_150 (status_key "u1") = (status_json false, None) /\
  unmarshal_status (status_json false) = inl (UserStatus.mk false 0) /\
  Authenticate
    (@Client_AuthClient (libs alice) (client alice (store_of inactive_marker_150)))
    (authorized ("Bearer " +:+ token_text))
  = Returns (authorized ("Bearer " +:+ token_text),
             Abort 403 "User account is disabled").
Proof.
  split; [reflexivity|]. split; [reflexivity|]. split; [reflexivity|].
  split; [reflexivity|].
  apply (@Authenticate_inactive_forbidden (libs alice)
           (client alice (store_of inactive_marker_150))
           (authorized ("Bearer " +:+ token_text)) token_text alice
           (status_json false) (UserStatus.mk false 0)
           eq_refl eq_refl eq_refl eq_refl eq_refl).
Defined.

Lemma absent_permissions_refuse_all_witness :
  gin.GetHeader (authorized ("Bearer " +:+ token_text)) "Authorization"
  = "Bearer " +:+ token_text /\
  @ValidateToken (libs alice) (client alice (store_of ∅)) token_text
  = (Some alice, None) /\
  Claims.IssuedAt alice = Some 100%Z /\
  fst (@CheckUserStatus (libs alice) (client alice (store_of ∅)) "u1") = true /\
  fst (@CheckForceLogout (libs alice) (client alice (store_of ∅)) "u1" 100)
  = false /\
  @store_absent (libs alice) (client alice (store_of ∅))
    (dynamic_permissions_key "u1") /\
  gin.run [Authenticate
             (@Client_AuthClient (libs alice) (client alice (store_of ∅)));
           RequirePermission_handler "a:b:c"]
    (authorized ("Bearer " +:+ token_text))
  = Returns
      (set_user_context (authorized ("Bearer " +:+ token_text))
         (AuthResult.mk alice [] true false),
       Abort 403 "Insufficient permissions: required 'a:b:c'").
Proof.
  assert (Habs : @store_absent (libs alice) (client alice (store_of ∅))
                   (dynamic_permissions_key "u1")).
  { exists EmptyString. reflexivity. }
  assert (Hact : fst (@CheckUserStatus (libs alice)
                        (client alice (store_of ∅)) "u1") = true)
    by reflexivity.
  assert (Hnf : fst (@CheckForceLogout (libs alice)
                       (client alice (store_of ∅)) "u1" 100) = false)
    by reflexivity.
  split; [reflexivity|]. split; [reflexivity|]. split; [reflexivity|].
  split; [exact Hact|]. split; [exact Hnf|]. split; [exact Habs|].
  apply (proj2 (@absent_permissions_refuse_all (libs alice)
                  (client alice (store_of ∅))
                  (authorized ("Bearer " +:+ token_text)) token_text alice
                  100%Z eq_refl eq_refl eq_refl Hact Hnf Habs)
               "a:b:c").
Defined.

End OnRequests.

(** ** Writing and reading back *)

Section DecimalRoundTrip.

Lemma digit_digit_char (d : Z) :
  (0 <= d < 10)%Z -> strconv.digit (digit_char d) = Some d.
Proof.
  intros Hd.
  assert (Hc : (d = 0 \/ d = 1 \/ d = 2 \/ d = 3 \/ d = 4 \/ d = 5 \/ d = 6 \/
                d = 7 \/ d = 8 \/ d = 9)%Z) by lia.
  repeat (destruct Hc as [->|Hc]; [reflexivity|]). subst. reflexivity.
Qed.

Lemma append_cons (a : ascii) (s1 s2 : string) :
  String a s1 +:+ s2 = String a (s1 +:+ s2).
Proof. reflexivity. Qed.

(** Parsing a concatenation: parse the first part, then go on from its
    value. *)
Lemma ParseUint_loop_app (s1 s2 : string) :
  forall n,
    strconv.ParseUint_loop (s1 +:+ s2) n
    = match strconv.ParseUint_loop s1 n with
      | (v, None) => strconv.ParseUint_loop s2 v
      | (v, Some e) => (v, Some e)
      end.
Proof.
  induction s1 as [|c s1 IH]; intros n; [reflexivity|].
  rewrite append_cons. cbn [strconv.ParseUint_loop].
  destruct (strconv.digit c) as [d|]; [|reflexivity].
  destruct (_ <=? n)%Z; [reflexivity|].
  destruct (_ || _); [reflexivity|]. apply IH.
Qed.

(** One more digit after the value [a]. *)
Lemma ParseUint_loop_digit (a d : Z) :
  (0 <= a)%Z -> (0 <= d < 10)%Z -> (a * 10 + d <= strconv.maxUint64)%Z ->
  strconv.ParseUint_loop (String (digit_char d) EmptyString) a
  = ((a * 10 + d)%Z, None).
Proof.
  intros Ha Hd Hmax. cbn [strconv.ParseUint_loop].
  rewrite (digit_digit_char d Hd).
  change strconv.maxUint64 with 18446744073709551615%Z in *.
  change (18446744073709551615 / 10 + 1)%Z with 1844674407370955162%Z.
  change (2 ^ 64)%Z with 18446744073709551616%Z.
  rewrite (proj2 (Z.leb_gt _ _)) by lia.
  rewrite (Z.mod_small (a * 10)) by lia.
  rewrite (Z.mod_small (a * 10 + d)) by lia.
  rewrite (proj2 (Z.ltb_ge _ _)) by lia.
  rewrite (proj2 (Z.ltb_ge _ _)) by lia.
  reflexivity.
Qed.

Lemma ParseUint_loop_FormatUint_digits (fuel : nat) :
  forall n,
    (0 <= n < 10 ^ Z.of_nat fuel)%Z -> (n <= strconv.maxUint64)%Z ->
    (0 < fuel)%nat ->
    strconv.ParseUint_loop (FormatUint_digits fuel n) 0 = (n, None).
Proof.
  induction fuel as [|fuel IH]; intros n Hn Hmax Hf; [lia|].
  cbn [FormatUint_digits].
  pose proof (Z.div_mod n 10 ltac:(lia)) as Hdm.
  pose proof (Z.mod_pos_bound n 10 ltac:(lia)) as Hmod.
  destruct (Z.ltb_spec n 10) as [Hlt|Hge].
  - change (EmptyString +:+ ?s) with s.
    rewrite (Z.mod_small n 10) by lia.
    rewrite (ParseUint_loop_digit 0 n) by lia. f_equal.
  - assert (Hq : (0 <= n / 10 < 10 ^ Z.of_nat fuel)%Z).
    { split; [apply Z.div_pos; lia|].
      apply Z.div_lt_upper_bound; [lia|].
      rewrite Nat2Z.inj_succ, Z.pow_succ_r in Hn by lia. lia. }
    assert (Hfuel : (0 < fuel)%nat).
    { destruct fuel; [|lia]. cbn in Hq. lia. }
    rewrite ParseUint_loop_app, (IH (n / 10)%Z Hq) by lia.
    rewrite (ParseUint_loop_digit (n / 10) (n mod 10)) by lia.
    f_equal. lia.
Qed.

Lemma FormatUint_digits_nonempty (fuel : nat) (n : Z) :
  exists c rest, FormatUint_digits (S fuel) n = String c rest.
Proof.
  cbn [FormatUint_digits].
  destruct (if (n <? 10)%Z then EmptyString else FormatUint_digits fuel (n / 10))
    as [|c rest]; [now eexists _, _|].
  rewrite append_cons. now eexists _, _.
Qed.

Lemma ParseUint_FormatUint_digits (n : Z) :
  (0 <= n <= 2 ^ 63)%Z ->
  strconv.ParseUint (FormatUint_digits 20 n) = (n, None).
Proof.
  intros Hn.
  destruct (FormatUint_digits_nonempty 19 n) as [c [rest Heq]].
  unfold strconv.ParseUint. rewrite Heq, <- Heq.
  apply ParseUint_loop_FormatUint_digits.
  - change (10 ^ Z.of_nat 20)%Z with 100000000000000000000%Z.
    change (2 ^ 63)%Z with 9223372036854775808%Z in Hn. lia.
  - change strconv.maxUint64 with 18446744073709551615%Z.
    change (2 ^ 63)%Z with 9223372036854775808%Z in Hn. lia.
  - lia.
Qed.

Lemma ParseInt_FormatInt_negative (i : Z) :
  (- 2 ^ 63 <= i < 0)%Z ->
  strconv.ParseInt (String "-" (FormatUint_digits 20 (- i))) = (i, None).
Proof.
  intros Hi. change (2 ^ 63)%Z with 9223372036854775808%Z in Hi.
  cbn [strconv.ParseInt]. change (Ascii.eqb "-" "-") with true.
  change (Ascii.eqb "-" "+") with false. cbn [orb].
  rewrite ParseUint_FormatUint_digits
    by (change (2 ^ 63)%Z with 9223372036854775808%Z; lia).
  change (2 ^ 63)%Z with 9223372036854775808%Z. cbn [negb andb].
  rewrite (proj2 (Z.ltb_ge _ _)) by lia. f_equal. lia.
Qed.

Lemma ParseInt_FormatInt_nonnegative (i : Z) :
  (0 <= i < 2 ^ 63)%Z ->
  strconv.ParseInt (FormatUint_digits 20 i) = (i, None).
Proof.
  intros Hi. change (2 ^ 63)%Z with 9223372036854775808%Z in Hi.
  pose proof (ParseUint_FormatUint_digits i) as Hparse.
  destruct (FormatUint_digits_nonempty 19 i) as [c [rest Heq]].
  rewrite Heq in *. cbn [strconv.ParseInt].
  assert (Hc : Ascii.eqb c "+" || Ascii.eqb c "-" = false).
  { specialize (Hparse ltac:(change (2 ^ 63)%Z with 9223372036854775808%Z; lia)).
    unfold strconv.ParseUint in Hparse. cbn [strconv.ParseUint_loop] in Hparse.
    destruct (Ascii.eqb_spec c "+") as [->|_]; [discriminate|].
    destruct (Ascii.eqb_spec c "-") as [->|_]; [discriminate|].
    reflexivity. }
  rewrite Hc.
  rewrite Hparse by (change (2 ^ 63)%Z with 9223372036854775808%Z; lia).
  apply orb_false_elim in Hc. destruct Hc as [_ ->].
  change (2 ^ 63)%Z with 9223372036854775808%Z. cbn [negb andb].
  rewrite (proj2 (Z.leb_gt _ _)) by lia. reflexivity.
Qed.

(** The timestamp [SetForceLogout] writes is read back as it is. *)
Lemma ParseInt_FormatInt_range (i : Z) :
  int64_range i ->
  strconv.ParseInt (strconv_FormatInt i) = (i, None).
Proof.
  unfold int64_range, strconv_FormatInt. intros Hi.
  destruct (Z.ltb_spec i 0).
  - apply ParseInt_FormatInt_negative. lia.
  - apply ParseInt_FormatInt_nonnegative. lia.
Qed.

(** X18: the decimal text the redis client writes for an [int64] is read
    back by [strconv.ParseInt] as the same number, without error; two
    different numbers are never written as the same text. *)
Theorem ParseInt_FormatInt (i j : Z) :
  int64_range i -> int64_range j ->
  strconv.ParseInt (strconv_FormatInt i) = (i, None) /\
  (strconv_FormatInt i = strconv_FormatInt j -> i = j).
Proof.
  unfold int64_range. intros Hi Hj. split.
  - unfold strconv_FormatInt. destruct (Z.ltb_spec i 0).
    + apply ParseInt_FormatInt_negative. lia.
    + apply ParseInt_FormatInt_nonnegative. lia.
  - intros Heq.
    assert (Hpi : strconv.ParseInt (strconv_FormatInt i) = (i, None)).
    { unfold strconv_FormatInt. destruct (Z.ltb_spec i 0).
      - apply ParseInt_FormatInt_negative. lia.
      - apply ParseInt_FormatInt_nonnegative. lia. }
    assert (Hpj : strconv.ParseInt (strconv_FormatInt j) = (j, None)).
    { unfold strconv_FormatInt. destruct (Z.ltb_spec j 0).
      - apply ParseInt_FormatInt_negative. lia.
      - apply ParseInt_FormatInt_nonnegative. lia. }
    rewrite Heq in Hpi. congruence.
Qed.

Lemma ParseInt_FormatInt_witness :
  int64_range (-1700000000) /\ int64_range 1700000000 /\
  strconv.ParseInt (strconv_FormatInt (-1700000000)) = ((-1700000000)%Z, None).
Proof.
  assert (Hr : int64_range (-1700000000)) by (unfold int64_range; lia).
  assert (Hr' : int64_range 1700000000) by (unfold int64_range; lia).
  split; [exact Hr|]. split; [exact Hr'|].
  exact (proj1 (ParseInt_FormatInt (-1700000000) 1700000000 Hr Hr')).
Defined.

End DecimalRoundTrip.

Example FormatInt_examples :
  strconv_FormatInt 0 = "0" /\
  strconv_FormatInt 1672531200 = "1672531200" /\
  strconv_FormatInt (-42) = "-42" /\
  strconv_FormatInt 9223372036854775807 = "9223372036854775807" /\
  strconv_FormatInt (-9223372036854775808) = "-9223372036854775808".
Proof. repeat split; vm_compute; reflexivity. Qed.

Section StoreKeys.

(** The three key families never meet, and within a family the key tells
    the user: no user id, whatever bytes it holds, reaches the key of
    another user or of another fact. *)
Lemma status_key_inj (u u' : string) : status_key u = status_key u' -> u = u'.
Proof. unfold status_key. cbv [String.append]. now intros [=]. Qed.

Lemma force_logout_key_inj (u u' : string) :
  force_logout_key u = force_logout_key u' -> u = u'.
Proof. unfold force_logout_key. cbv [String.append]. now intros [=]. Qed.

Lemma status_key_not_force_logout (u u' : string) :
  status_key u <> force_logout_key u'.
Proof. unfold status_key, force_logout_key. cbv [String.append]. intros [=]. Qed.

Lemma status_key_not_permissions (u u' : string) :
  status_key u <> dynamic_permissions_key u'.
Proof.
  unfold status_key, dynamic_permissions_key. cbv [String.append]. intros [=].
Qed.

Lemma force_logout_key_not_permissions (u u' : string) :
  force_logout_key u <> dynamic_permissions_key u'.
Proof.
  unfold force_logout_key, dynamic_permissions_key. cbv [String.append].
  intros [=].
Qed.

(** Reading the key just written, and reading another key. *)
Lemma Get_Set_same (srv : redis.Server) (t0 t1 : Z) (key val : string)
    (expiration : Z) :
  redis.reachable srv = true -> (0 < expiration)%Z ->
  exists srv',
    redis.Set' srv t0 key val expiration = (srv', None) /\
    redis.reachable srv' = true /\
    redis.Get srv' t1 key
    = if (t1 <=? t0 + expiration)%Z then (val, None)
      else (EmptyString, Some redis_Nil).
Proof.
  intros Hr Hexp. unfold redis.Set'. rewrite Hr. cbn [negb].
  eexists. split; [reflexivity|]. split; [reflexivity|].
  unfold redis.Get. cbn [redis.reachable redis.data negb].
  rewrite lookup_insert_eq. unfold redis.live. cbn [redis.expireAt redis.value].
  rewrite (proj2 (Z.ltb_lt _ _) Hexp). reflexivity.
Qed.

Lemma Get_Set_other (srv : redis.Server) (t0 t1 : Z) (key key' val : string)
    (expiration : Z) :
  key <> key' ->
  redis.Get (fst (redis.Set' srv t0 key val expiration)) t1 key'
  = redis.Get srv t1 key'.
Proof.
  intros Hne. unfold redis.Set'.
  destruct (redis.reachable srv) eqn:Hr; cbn [negb fst]; [|reflexivity].
  unfold redis.Get. cbn [redis.reachable redis.data]. rewrite Hr.
  cbn [negb]. now rewrite lookup_insert_ne.
Qed.

Lemma SetForceLogout_server (srv : redis.Server) (t0 : Z) (u : string) :
  fst (SetForceLogout srv t0 u)
  = fst (redis.Set' srv t0 (force_logout_key u)
           (strconv_FormatInt (time.Unix t0)) (24 * time.Hour)).
Proof.
  unfold SetForceLogout. fold (force_logout_key u).
  now destruct (redis.Set' _ _ _ _ _) as [srv' [e|]].
Qed.

End StoreKeys.

Section WriteThenRead.

Context `{Externals}.
Variable json_Marshal_UserStatus : UserStatus.t -> string + error.

Implicit Types (c : Client.t) (srv : redis.Server).

(** X19: after [SetForceLogout] on a reachable server, and until the 24
    hours of the marker have gone by, [CheckForceLogout] answers, without
    error, whether the token was issued before the second of the call: a
    token issued in that very second or later is not logged out. *)
Theorem SetForceLogout_read_back c srv (t0 t1 : Z) (userID : string)
    (tokenIssuedAt : Z) :
  redis.reachable srv = true ->
  int64_range (time.Unix t0) ->
  (t1 < t0 + 24 * time.Hour)%Z ->
  exists srv',
    SetForceLogout srv t0 userID = (srv', None) /\
    CheckForceLogout (reading c srv' t1) userID tokenIssuedAt
    = ((tokenIssuedAt <? time.Unix t0)%Z, None).
Proof.
  intros Hr Hrange Ht1.
  destruct (Get_Set_same srv t0 t1 (force_logout_key userID)
              (strconv_FormatInt (time.Unix t0)) (24 * time.Hour) Hr)
    as [srv' [Hset [_ Hget]]]; [reflexivity|].
  exists srv'. split.
  - unfold SetForceLogout. fold (force_logout_key userID). now rewrite Hset.
  - rewrite (proj2 (Z.leb_le _ _)) in Hget by lia.
    apply (CheckForceLogout_decoded (reading c srv' t1) userID tokenIssuedAt
             (strconv_FormatInt (time.Unix t0)) (time.Unix t0)).
    + exact Hget.
    + apply ParseInt_FormatInt_range. exact Hrange.
Qed.

(** X20: once the 24 hours of the marker have gone by, the forced logout
    has lapsed: [CheckForceLogout] answers [false] for every token, also
    for the tokens issued before the call. *)
Theorem SetForceLogout_lapses c srv (t0 t1 : Z) (userID : string)
    (tokenIssuedAt : Z) :
  redis.reachable srv = true ->
  (t0 + 24 * time.Hour < t1)%Z ->
  CheckForceLogout (reading c (fst (SetForceLogout srv t0 userID)) t1)
    userID tokenIssuedAt
  = (false, None).
Proof.
  intros Hr Ht1. rewrite SetForceLogout_server.
  destruct (Get_Set_same srv t0 t1 (force_logout_key userID)
              (strconv_FormatInt (time.Unix t0)) (24 * time.Hour) Hr)
    as [srv' [Hset [_ Hget]]]; [reflexivity|].
  rewrite Hset. cbn [fst].
  rewrite (proj2 (Z.leb_gt _ _)) in Hget by lia.
  apply CheckForceLogout_absent. eexists. exact Hget.
Qed.

(** X21: after [SetUserStatus] on a reachable server, with a JSON library
    that decodes what it encoded, [CheckUserStatus] answers the flag that
    was set until the 10 minutes of the entry have gone by, and [true]
    afterwards: a deactivation lapses after ten minutes. *)
Theorem SetUserStatus_read_back c srv (t0 : Z) (userID : string)
    (isActive : bool) (data : string) (decoded : UserStatus.t) :
  redis.reachable srv = true ->
  json_Marshal_UserStatus (UserStatus.mk isActive t0) = inl data ->
  json_Unmarshal_UserStatus data = inl decoded ->
  UserStatus.IsActive decoded = isActive ->
  exists srv',
    SetUserStatus json_Marshal_UserStatus srv t0 userID isActive
    = (srv', None) /\
    (forall t1, (t1 < t0 + 10 * time.Minute)%Z ->
       CheckUserStatus (reading c srv' t1) userID = (isActive, None)) /\
    (forall t1, (t0 + 10 * time.Minute < t1)%Z ->
       CheckUserStatus (reading c srv' t1) userID = (true, None)).
Proof.
  intros Hr Hm Hu Hflag.
  destruct (Get_Set_same srv t0 0 (status_key userID) data
              (10 * time.Minute) Hr) as [srv' [Hset _]]; [reflexivity|].
  exists srv'. split; [|split].
  - unfold SetUserStatus. fold (status_key userID). now rewrite Hm, Hset.
  - intros t1 Ht1.
    destruct (Get_Set_same srv t0 t1 (status_key userID) data
                (10 * time.Minute) Hr) as [srv1 [Hset1 [_ Hget]]];
      [reflexivity|].
    rewrite Hset in Hset1. injection Hset1 as <-.
    rewrite (proj2 (Z.leb_le _ _)) in Hget by lia.
    rewrite (CheckUserStatus_decoded (reading c srv' t1) userID data decoded
               Hget Hu).
    now rewrite Hflag.
  - intros t1 Ht1.
    destruct (Get_Set_same srv t0 t1 (status_key userID) data
                (10 * time.Minute) Hr) as [srv1 [Hset1 [_ Hget]]];
      [reflexivity|].
    rewrite Hset in Hset1. injection Hset1 as <-.
    rewrite (proj2 (Z.leb_gt _ _)) in Hget by lia.
    apply CheckUserStatus_absent. eexists. exact Hget.
Qed.

Lemma reading_status c srv (t : Z) (userID : string) :
  CheckUserStatus (reading c srv t) userID
  = match redis.Get srv t (status_key userID) with
    | (_, Some redis_Nil) => (true, None)
    | (_, Some err) => (true, Some err)
    | (val, None) =>
        match json_Unmarshal_UserStatus val with
        | inr err => (true, Some (fmt_Errorf_w "failed to parse user status" err))
        | inl status => (UserStatus.IsActive status, None)
        end
    end.
Proof. reflexivity. Qed.

Lemma reading_force_logout c srv (t : Z) (userID : string) (iat : Z) :
  CheckForceLogout (reading c srv t) userID iat
  = match redis.Get srv t (force_logout_key userID) with
    | (_, Some redis_Nil) => (false, None)
    | (_, Some err) => (false, Some err)
    | (val, None) =>
        match strconv.ParseInt val with
        | (_, Some err) =>
            (false, Some (fmt_Errorf_w "failed to parse force logout timestamp" err))
        | (forceLogoutTimestamp, None) =>
            ((iat <? forceLogoutTimestamp)%Z, None)
        end
    end.
Proof. reflexivity. Qed.

Lemma reading_permissions c srv srv' (t : Z) (userID : string) :
  redis.Get srv' t (dynamic_permissions_key userID)
  = redis.Get srv t (dynamic_permissions_key userID) ->
  GetUserDynamicPermissions (reading c srv' t) userID
  = GetUserDynamicPermissions (reading c srv t) userID.
Proof.
  intros Hsame. unfold GetUserDynamicPermissions, reading, with_store.
  cbn [Client.redisClient]. fold (dynamic_permissions_key userID).
  now rewrite Hsame.
Qed.

Lemma SetUserStatus_other_key srv (t0 t1 : Z) (userID key : string)
    (isActive : bool) :
  key <> status_key userID ->
  redis.Get (fst (SetUserStatus json_Marshal_UserStatus srv t0 userID isActive))
    t1 key
  = redis.Get srv t1 key.
Proof.
  intros Hne. unfold SetUserStatus. fold (status_key userID).
  destruct (json_Marshal_UserStatus _) as [data|err]; [|reflexivity].
  rewrite <- (Get_Set_other srv t0 t1 (status_key userID) key data
                (10 * time.Minute)) by congruence.
  now destruct (redis.Set' _ _ _ _ _) as [srv' [e|]].
Qed.

Lemma SetForceLogout_other_key srv (t0 t1 : Z) (userID key : string) :
  key <> force_logout_key userID ->
  redis.Get (fst (SetForceLogout srv t0 userID)) t1 key = redis.Get srv t1 key.
Proof.
  intros Hne. rewrite SetForceLogout_server.
  apply Get_Set_other. congruence.
Qed.

(** X22: a write touches one key: [SetUserStatus] leaves the forced
    logout and the permissions of every user, and the status of every
    other user, as they were, and so does [SetForceLogout] for the status
    and the permissions of every user and the forced logout of every other
    user, whatever bytes the user ids hold. *)
Theorem writes_touch_one_key c srv (t0 t1 : Z) (userID other : string)
    (isActive : bool) (tokenIssuedAt : Z) :
  let after_status :=
    fst (SetUserStatus json_Marshal_UserStatus srv t0 userID isActive) in
  let after_logout := fst (SetForceLogout srv t0 userID) in
  CheckForceLogout (reading c after_status t1) other tokenIssuedAt
  = CheckForceLogout (reading c srv t1) other tokenIssuedAt /\
  GetUserDynamicPermissions (reading c after_status t1) other
  = GetUserDynamicPermissions (reading c srv t1) other /\
  CheckUserStatus (reading c after_logout t1) other
  = CheckUserStatus (reading c srv t1) other /\
  GetUserDynamicPermissions (reading c after_logout t1) other
  = GetUserDynamicPermissions (reading c srv t1) other /\
  (other <> userID ->
   CheckUserStatus (reading c after_status t1) other
   = CheckUserStatus (reading c srv t1) other /\
   CheckForceLogout (reading c after_logout t1) other tokenIssuedAt
   = CheckForceLogout (reading c srv t1) other tokenIssuedAt).
Proof.
  intros after_status after_logout. subst after_status after_logout.
  split; [|split; [|split; [|split]]].
  - rewrite !reading_force_logout, SetUserStatus_other_key; [reflexivity|].
    intros Heq. symmetry in Heq. now apply status_key_not_force_logout in Heq.
  - apply reading_permissions, SetUserStatus_other_key.
    intros Heq. symmetry in Heq. now apply status_key_not_permissions in Heq.
  - rewrite !reading_status, SetForceLogout_other_key; [reflexivity|].
    apply status_key_not_force_logout.
  - apply reading_permissions, SetForceLogout_other_key.
    intros Heq. symmetry in Heq.
    now apply force_logout_key_not_permissions in Heq.
  - intros Hne. split.
    + rewrite !reading_status, SetUserStatus_other_key; [reflexivity|].
      intros Heq. now apply status_key_inj in Heq.
    + rewrite !reading_force_logout, SetForceLogout_other_key; [reflexivity|].
      intros Heq. now apply force_logout_key_inj in Heq.
Qed.

(** X23: after [SetForceLogout] for the user of a verified token, and
    until the 24 hours have gone by, [Authenticate] refuses an account that
    is not inactive with 401 and the login-again message exactly when the
    token was issued before the second of the call. *)
Theorem forced_logout_refuses c srv (t0 t1 : Z) (ctx : gin.Context)
    (tokenString : string) (claims : Claims.t) (issuedAt : Z) :
  redis.reachable srv = true ->
  int64_range (time.Unix t0) ->
  (t1 < t0 + 24 * time.Hour)%Z ->
  gin.GetHeader ctx "Authorization" = "Bearer " +:+ tokenString ->
  ValidateToken c tokenString = (Some claims, None) ->
  Claims.IssuedAt claims = Some issuedAt ->
  fst (CheckUserStatus (reading c srv t1) (Claims.UserID claims)) = true ->
  (Authenticate
     (Client_AuthClient
        (reading c (fst (SetForceLogout srv t0 (Claims.UserID claims))) t1))
     ctx
   = Returns (ctx, Abort 401 "Please login again")
   <-> (issuedAt < time.Unix t0)%Z).
Proof.
  intros Hr Hrange Ht1 Hh Hv Hiat Hact.
  set (srv' := fst (SetForceLogout srv t0 (Claims.UserID claims))).
  assert (Hact' : fst (CheckUserStatus (reading c srv' t1) (Claims.UserID claims))
                  = true).
  { rewrite reading_status. unfold srv'.
    rewrite SetForceLogout_other_key by apply status_key_not_force_logout.
    rewrite <- (reading_status c). exact Hact. }
  assert (Hlogout : CheckForceLogout (reading c srv' t1)
                      (Claims.UserID claims) issuedAt
                    = ((issuedAt <? time.Unix t0)%Z, None)).
  { destruct (Get_Set_same srv t0 t1 (force_logout_key (Claims.UserID claims))
                (strconv_FormatInt (time.Unix t0)) (24 * time.Hour) Hr)
      as [srv1 [Hset [_ Hget]]]; [reflexivity|].
    rewrite (proj2 (Z.leb_le _ _)) in Hget by lia.
    rewrite reading_force_logout. unfold srv'.
    rewrite SetForceLogout_server, Hset. cbn [fst]. rewrite Hget.
    now rewrite (ParseInt_FormatInt_range _ Hrange). }
  rewrite (Authenticate_Bearer _ _ _ Hh).
  cbn [Client_AuthClient authClient_ValidateTokenWithDynamicAuth].
  assert (Hv' : ValidateToken (reading c srv' t1) tokenString
                = (Some claims, None)) by exact Hv.
  rewrite (resolve_active _ _ _ _ Hv' Hiat Hact'), Hlogout.
  cbn [AuthResult.IsActive AuthResult.ShouldForceLogout negb].
  destruct (Z.ltb_spec issuedAt (time.Unix t0)) as [Hlt|Hge].
  - split; [intros _; exact Hlt | reflexivity].
  - split; [discriminate | lia].
Qed.

End WriteThenRead.

Section ReadErrors.

Context `{Externals}.

(** X24: each of the three store reads answers its permissive value
    whenever it reports an error: [true] for the status, [false] for the
    forced logout, no permission for the permissions. *)
Theorem read_errors_are_permissive (c : Client.t) (userID : string)
    (tokenIssuedAt : Z) :
  (snd (CheckUserStatus c userID) = None \/
   fst (CheckUserStatus c userID) = true) /\
  (snd (CheckForceLogout c userID tokenIssuedAt) = None \/
   fst (CheckForceLogout c userID tokenIssuedAt) = false) /\
  (snd (GetUserDynamicPermissions c userID) = None \/
   fst (GetUserDynamicPermissions c userID) = []).
Proof.
  split; [|split].
  - destruct (CheckUserStatus c userID) as [b [e|]] eqn:Hs; [|now left].
    right. cbn. exact (CheckUserStatus_error_true _ _ _ _ Hs).
  - destruct (CheckForceLogout c userID tokenIssuedAt) as [b [e|]] eqn:Hs;
      [|now left].
    right. cbn. exact (CheckForceLogout_error_false _ _ _ _ _ Hs).
  - unfold GetUserDynamicPermissions.
    destruct (Client.redisClient c _) as [val [e|]].
    + destruct e; cbn; auto.
    + destruct (json_Unmarshal_map val) as [m|e]; [|cbn; auto].
      destruct (m !! "permissions") as [[]|]; cbn; auto.
Qed.

(** X25: [NewClient] returns no client: [loadPublicKey] is a stub that
    fails, so for every configuration, and before any connection to redis
    is made, [NewClient] returns the wrapped error. *)
Theorem NewClient_fails (connect : Config.t -> string -> string * option error)
    (config : Config.t) :
  NewClient connect config
  = (None,
     Some (fmt_Errorf_w "failed to load public key"
             (fmt_Errorf
                "loadPublicKey not implemented - please implement based on your key format"))) /\
  forall connect', NewClient connect' config = NewClient connect config.
Proof.
  unfold NewClient, loadPublicKey. split; [reflexivity | intros; reflexivity].
Qed.

End ReadErrors.

Module OnWrites.

Import Fixture WriteDoubles.

Lemma SetForceLogout_read_back_witness :
  redis.reachable empty_server = true /\
  int64_range (time.Unix new_year) /\
  (new_year + time.Hour < new_year + 24 * time.Hour)%Z /\
  exists srv',
    SetForceLogout empty_server new_year "u1" = (srv', None) /\
    @CheckForceLogout (libs alice)
      (@reading (libs alice) reader srv' (new_year + time.Hour)) "u1" 100
    = ((100 <? time.Unix new_year)%Z, None).
Proof.
  assert (Hrange : int64_range (time.Unix new_year))
    by (unfold int64_range; vm_compute; split; [discriminate | reflexivity]).
  assert (Ht : (new_year + time.Hour < new_year + 24 * time.Hour)%Z)
    by reflexivity.
  split; [reflexivity|]. split; [exact Hrange|]. split; [exact Ht|].
  exact (@SetForceLogout_read_back (libs alice) reader empty_server new_year
           (new_year + time.Hour) "u1" 100 eq_refl Hrange Ht).
Defined.

Lemma SetForceLogout_lapses_witness :
  redis.reachable empty_server = true /\
  (new_year + 24 * time.Hour < new_year + 25 * time.Hour)%Z /\
  @CheckForceLogout (libs alice)
    (@reading (libs alice) reader
       (fst (SetForceLogout empty_server new_year "u1"))
       (new_year + 25 * time.Hour)) "u1" 100
  = (false, None).
Proof.
  assert (Ht : (new_year + 24 * time.Hour < new_year + 25 * time.Hour)%Z)
    by reflexivity.
  split; [reflexivity|]. split; [exact Ht|].
  exact (@SetForceLogout_lapses (libs alice) reader empty_server new_year
           (new_year + 25 * time.Hour) "u1" 100 eq_refl Ht).
Defined.

Lemma SetUserStatus_read_back_witness :
  redis.reachable empty_server = true /\
  marshal_status (UserStatus.mk false new_year) = inl (status_json false) /\
  unmarshal_status (status_json false) = inl (UserStatus.mk false 0) /\
  exists srv',
    @SetUserStatus marshal_status empty_server new_year "u1" false
    = (srv', None) /\
    @CheckUserStatus (libs alice)
      (@reading (libs alice) reader srv' (new_year + time.Minute)) "u1"
    = (false, None) /\
    @CheckUserStatus (libs alice)
      (@reading (libs alice) reader srv' (new_year + 11 * time.Minute)) "u1"
    = (true, None).
Proof.
  split; [reflexivity|]. split; [reflexivity|]. split; [reflexivity|].
  destruct (@SetUserStatus_read_back (libs alice) marshal_status reader
              empty_server new_year "u1" false (status_json false)
              (UserStatus.mk false 0) eq_refl eq_refl eq_refl eq_refl)
    as [srv' [Hset [Hin Hout]]].
  exists srv'. split; [exact Hset|]. split.
  - apply Hin. reflexivity.
  - apply Hout. reflexivity.
Defined.

Lemma forced_logout_refuses_witness :
  redis.reachable empty_server = true /\
  int64_range (time.Unix new_year) /\
  (new_year + time.Hour < new_year + 24 * time.Hour)%Z /\
  @ValidateToken (libs alice) reader token_text = (Some alice, None) /\
  Claims.IssuedAt alice = Some 100%Z /\
  (Authenticate
     (@Client_AuthClient (libs alice)
        (@reading (libs alice) reader
           (fst (SetForceLogout empty_server new_year "u1"))
           (new_year + time.Hour)))
     (Requests.authorized ("Bearer " +:+ token_text))
   = Returns (Requests.authorized ("Bearer " +:+ token_text),
              Abort 401 "Please login again")
   <-> (100 < time.Unix new_year)%Z).
Proof.
  assert (Hrange : int64_range (time.Unix new_year))
    by (unfold int64_range; vm_compute; split; [discriminate | reflexivity]).
  assert (Ht : (new_year + time.Hour < new_year + 24 * time.Hour)%Z)
    by reflexivity.
  assert (Hact : fst (@CheckUserStatus (libs alice)
                        (@reading (libs alice) reader empty_server
                           (new_year + time.Hour)) "u1") = true)
    by reflexivity.
  split; [reflexivity|]. split; [exact Hrange|]. split; [exact Ht|].
  split; [reflexivity|]. split; [reflexivity|].
  exact (@forced_logout_refuses (libs alice) reader empty_server new_year
           (new_year + time.Hour)
           (Requests.authorized ("Bearer " +:+ token_text)) token_text alice
           100%Z eq_refl Hrange Ht eq_refl eq_refl eq_refl Hact).
Defined.

End OnWrites.

(** The scenario of the README: a forced logout at the new year, a token
    issued long before, read one hour later. *)
Example scenario_forced_logout :
  Authenticate
    (@Client_AuthClient (Fixture.libs Fixture.alice)
       (@reading (Fixture.libs Fixture.alice)
          (Fixture.client Fixture.alice (Fixture.store_of ∅))
          (fst (SetForceLogout WriteDoubles.empty_server
                  WriteDoubles.new_year "u1"))
          (WriteDoubles.new_year + time.Hour)))
    (Requests.authorized ("Bearer " +:+ Fixture.token_text))
  = Returns (Requests.authorized ("Bearer " +:+ Fixture.token_text),
             Abort 401 "Please login again").
Proof. vm_compute. reflexivity. Qed.
